(** * Authentication and email-verification core of the Bonsai backend

    A shallow embedding of [app/utils/auth.py] and [app/routes/auth.py]:
    the credential hasher, the token codec, the auth gate and the
    email-verification lifecycle, together with the properties the
    specification states about them; and of [app/routes/tasks.py], the
    task routes behind the gate, with the properties the code shows.

    Conventions.
    - A Python call either returns a value or raises: [result].  A route
      handler runs against the [users] table inside one database session;
      [get_db] commits when the handler returns and rolls back when it
      raises, so a handler is a function from the table to either a
      response with the new table, or an exception (and the old table
      stays).  This is the monad [M].
    - [datetime.now(timezone.utc)] is an input: every handler takes the
      instants it reads from the clock, in the order it reads them.
      Datetimes are instants and timedeltas durations, both counted in
      microseconds.  A sum of a datetime and a timedelta exists only
      between [datetime.min] and [datetime.max]: [create_access_token],
      whose [expires_delta] is the caller's, raises outside of it; the
      configured [verification_token_expire_hours] is taken to be one
      for which the sum with the clock exists.  A datetime is aware or
      naive, and what is read back from a [Column(DateTime)] of the
      configured SQLite database is naive.
    - Claims are a dictionary from strings to JSON scalars.
    - The two libraries, python-jose and passlib, are modelled
      symbolically (perfect cryptography): a token is the claims it
      carries and the key that signed it, a password hash is the salt and
      the password it was computed from.
    - Request validation by the schemas (lengths, email syntax) happens
      before a handler runs and is not modelled. *)

From stdpp Require Import gmap strings list fin_maps pretty sorting.
From Stdlib Require Import ZArith Lia.

Open Scope Z_scope.

(** ** Python results and exceptions *)

Inductive exn : Type :=
| JWTError
| UnknownHashError
| PasswordSizeError
| OverflowError
| TypeError
| MultipleResultsFound
| IntegrityError
| HTTPException (status_code : Z) (detail : string)
    (headers : list (string * string)).

Inductive result (A : Type) : Type :=
| Return (a : A)
| Raise (e : exn).
Arguments Return {A} a.
Arguments Raise {A} e.

#[global] Instance exn_eq_dec : EqDecision exn.
Proof. solve_decision. Defined.

#[global] Instance result_ret : MRet result := fun A a => Return a.

#[global] Instance result_bind : MBind result := fun A B f r =>
  match r with
  | Return a => f a
  | Raise e => Raise e
  end.

(** ** Time *)

Definition datetime := Z.
Definition timedelta := Z.

Definition seconds (n : Z) : timedelta := n * 1000000.
Definition minutes (n : Z) : timedelta := n * 60000000.
Definition hours (n : Z) : timedelta := n * 3600000000.

(** [timegm(d.utctimetuple())]: whole seconds since the epoch, the
    microseconds dropped. *)
Definition timegm (d : datetime) : Z := d / 1000000.

(** [datetime.min] and [datetime.max], the first microsecond of year 1
    and the last of year 9999. *)
Definition datetime_min : datetime := -62135596800000000.
Definition datetime_max : datetime := 253402300799999999.

(** An instant that a [datetime] can hold. *)
Definition representable (d : Z) : Prop :=
  datetime_min <= d <= datetime_max.

(** [d + delta] on a datetime: [OverflowError] when the sum leaves the
    range of [datetime]. *)
Definition datetime_add (d : datetime) (delta : timedelta) : result datetime :=
  if bool_decide (representable (d + delta))
  then Return (d + delta)
  else Raise OverflowError.

(** A datetime carries a timezone (aware; here always UTC, as
    [datetime.now(timezone.utc)] does) or none (naive).  [a < b] between
    an aware and a naive datetime raises [TypeError]. *)
Inductive tz_datetime : Type :=
| Aware (d : datetime)
| Naive (d : datetime).

Definition datetime_lt (a b : tz_datetime) : result bool :=
  match a, b with
  | Aware x, Aware y => Return (x <? y)
  | Naive x, Naive y => Return (x <? y)
  | _, _ => Raise TypeError
  end.

(** What a [Column(DateTime)], a column without timezone, gives back for
    the stored value: the same reading of the clock, naive. *)
Definition column_datetime (d : datetime) : tz_datetime := Naive d.

(** ** Claims *)

(** The JSON scalars a claim can hold: the application itself only signs
    strings and integers. *)
Inductive value : Type :=
| VInt (n : Z)
| VStr (s : string)
| VBool (b : bool).

#[global] Instance value_eq_dec : EqDecision value.
Proof. solve_decision. Defined.

Abbreviation claims := (gmap string value).

(** ** Tokens (python-jose, symbolic) *)

(** A compact JWS is its header algorithm, its payload and the key under
    which the signature was computed; every other string is [NotJWS]. *)
Inductive token : Type :=
| NotJWS (s : string)
| JWS (alg : string) (payload : claims) (key : string).

#[global] Instance token_eq_dec : EqDecision token.
Proof. solve_decision. Defined.

Definition ALGORITHM : string := "HS256".

(** [jwt.encode(claims, key, algorithm=ALGORITHM)].  Datetimes under the
    time claims are turned into whole seconds by the caller's [timegm]
    here, since a [value] holds no datetime. *)
Definition jwt_encode (c : claims) (key : string) : token :=
  JWS ALGORITHM c key.

Definition is_digit (a : Ascii.ascii) : bool :=
  let n := Z.of_nat (Ascii.nat_of_ascii a) in (48 <=? n) && (n <=? 57).

Fixpoint digits_value (acc : Z) (s : string) : option Z :=
  match s with
  | EmptyString => Some acc
  | String a s' =>
      if is_digit a
      then digits_value (10 * acc + (Z.of_nat (Ascii.nat_of_ascii a) - 48)) s'
      else None
  end.

Definition nonempty_digits (s : string) : option Z :=
  match s with
  | EmptyString => None
  | String _ _ => digits_value 0 s
  end.

(** Python's [int(s)] on a string, for the plain decimal spellings: an
    optional sign and at least one digit.  [None] is [ValueError]. *)
Definition int_of_str (s : string) : option Z :=
  match s with
  | EmptyString => None
  | String a d =>
      let n := Ascii.nat_of_ascii a in
      if (n =? 45)%nat then Z.opp <$> nonempty_digits d
      else if (n =? 43)%nat then nonempty_digits d
      else digits_value 0 s
  end.

(** Python's [int(v)] on a claim value. *)
Definition py_int (v : value) : option Z :=
  match v with
  | VInt n => Some n
  | VBool b => Some (if b then 1 else 0)
  | VStr s => int_of_str s
  end.

Definition is_str (v : value) : bool :=
  match v with VStr _ => true | _ => false end.

(** The registered-claim checks of [jwt.decode] with its default options
    and no audience, issuer, subject or access token given, in the
    library's order: iat, nbf, exp, aud, iss, sub, jti, at_hash.  Every
    failure is a [JWTClaimsError] or [ExpiredSignatureError], both
    [JWTError]s. *)
Definition validate_iat (c : claims) : bool :=
  match c !! "iat" with
  | None => true
  | Some v => match py_int v with Some _ => true | None => false end
  end.

Definition validate_nbf (c : claims) (now_s : Z) : bool :=
  match c !! "nbf" with
  | None => true
  | Some v => match py_int v with Some nbf => negb (now_s <? nbf) | None => false end
  end.

Definition validate_exp (c : claims) (now_s : Z) : bool :=
  match c !! "exp" with
  | None => true
  | Some v => match py_int v with Some exp => negb (exp <? now_s) | None => false end
  end.

Definition validate_aud (c : claims) : bool :=
  match c !! "aud" with None => true | Some _ => false end.

Definition validate_sub (c : claims) : bool :=
  match c !! "sub" with None => true | Some v => is_str v end.

Definition validate_jti (c : claims) : bool :=
  match c !! "jti" with None => true | Some v => is_str v end.

Definition validate_at_hash (c : claims) : bool :=
  match c !! "at_hash" with None => true | Some _ => false end.

Definition validate_claims (c : claims) (now_s : Z) : bool :=
  validate_iat c && validate_nbf c now_s && validate_exp c now_s &&
  validate_aud c && validate_sub c && validate_jti c && validate_at_hash c.

(** [jwt.decode(token, key, algorithms=[ALGORITHM])] at instant [now]. *)
Definition jwt_decode (t : token) (key : string) (now : datetime) : result claims :=
  match t with
  | NotJWS _ => Raise JWTError
  | JWS alg c k =>
      if bool_decide (alg = ALGORITHM) && bool_decide (k = key)
      then if validate_claims c (timegm now) then Return c else Raise JWTError
      else Raise JWTError
  end.

(** ** Password hashes (passlib, symbolic) *)

(** A stored hash is either a well-formed argon2 string, determined by
    its salt and the password it was computed from, or a string that is
    not a well-formed hash of the scheme.
    [CryptContext.verify] first identifies the scheme of the stored
    string and raises on one it cannot identify ([UnknownHashError]);
    the handler of the scheme then refuses, as [CryptContext.hash] does,
    a secret of more than [MAX_PASSWORD_SIZE] characters
    ([PasswordSizeError]) before it computes anything. *)
Inductive pwhash : Type :=
| Argon2 (salt : string) (password : string)
| Malformed (s : string).

#[global] Instance pwhash_eq_dec : EqDecision pwhash.
Proof. solve_decision. Defined.

Definition MAX_PASSWORD_SIZE : Z := 4096.

Definition len (s : string) : Z := Z.of_nat (String.length s).

Definition validate_secret (secret : string) : result unit :=
  if bool_decide (MAX_PASSWORD_SIZE < len secret)
  then Raise PasswordSizeError
  else Return tt.

Definition pwd_context_hash (password salt : string) : result pwhash :=
  _ ← validate_secret password;
  Return (Argon2 salt password).

Definition pwd_context_verify (secret : string) (h : pwhash) : result bool :=
  match h with
  | Malformed _ => Raise UnknownHashError
  | Argon2 _ password =>
      _ ← validate_secret secret;
      Return (bool_decide (secret = password))
  end.

(** ** app/config.py *)

Record Settings : Type := {
  secret_key : string;
  verification_token_expire_hours : Z
}.

(** ** app/models/database.py *)

Module User.
Record t : Type := {
  id : Z;
  email : string;
  username : string;
  hashed_password : pwhash;
  created_at : datetime;
  email_verified : bool;
  verification_token : option token;
  verification_token_expires : option datetime
}.

#[global] Instance eq_dec : EqDecision t.
Proof. solve_decision. Defined.
End User.

(** ** app/models/schemas.py *)

Module UserCreate.
Record t : Type := { email : string; username : string; password : string }.
End UserCreate.

Record MessageResponse : Type := { message : string; success : bool }.

Record Token : Type := { access_token : token; token_type : string }.

(** ** The database session *)

Definition M (A : Type) : Type := list User.t -> result (A * list User.t).

#[global] Instance M_ret : MRet M := fun A a db => Return (a, db).

#[global] Instance M_bind : MBind M := fun A B f m db =>
  match m db with
  | Return (a, db') => f a db'
  | Raise e => Raise e
  end.

Definition raise {A : Type} (e : exn) : M A := fun _ => Raise e.

(** A pure call that may raise, made inside a handler. *)
Definition call {A : Type} (r : result A) : M A := fun db =>
  match r with
  | Return a => Return (a, db)
  | Raise e => Raise e
  end.

(** [(await db.execute(select(User).where(P))).scalar_one_or_none()] *)
Definition select_where (P : User.t -> Prop) `{forall u, Decision (P u)} : M (list User.t) :=
  fun db => Return (filter P db, db).

Definition scalar_one_or_none (rows : list User.t) : M (option User.t) :=
  match rows with
  | [] => mret None
  | [u] => mret (Some u)
  | _ => raise MultipleResultsFound
  end.

(** The primary key handed out by [db.add] and [db.flush]. *)
Definition next_id (db : list User.t) : Z :=
  1 + foldr (fun u m => Z.max (User.id u) m) 0 db.

(** [db.add(db_user); await db.flush(); await db.refresh(db_user)] for a
    new row: the key is assigned, [created_at] takes the database's
    clock, the token columns default to NULL, and the unique constraints
    on [email] and [username] are enforced. *)
Definition db_add (email username : string) (hashed_password : pwhash)
    (email_verified : bool) (t_db : datetime) : M User.t := fun db =>
  if bool_decide (Exists (fun r => User.email r = email \/ User.username r = username) db)
  then Raise IntegrityError
  else
    let db_user :=
      {| User.id := next_id db; User.email := email; User.username := username;
         User.hashed_password := hashed_password; User.created_at := t_db;
         User.email_verified := email_verified;
         User.verification_token := None;
         User.verification_token_expires := None |} in
    Return (db_user, db ++ [db_user]).

(** [await db.flush()] after attributes of a loaded row were assigned:
    the row with that key is rewritten. *)
Definition rewrite_row (u : User.t) (db : list User.t) : list User.t :=
  (fun r => if bool_decide (User.id r = User.id u) then u else r) <$> db.

Definition db_flush (u : User.t) : M unit := fun db =>
  Return (tt, rewrite_row u db).

(** Assignments to the attributes of a loaded [User]. *)
Definition set_verification (u : User.t) (verified : bool)
    (tok : option token) (expires : option datetime) : User.t :=
  {| User.id := User.id u; User.email := User.email u;
     User.username := User.username u;
     User.hashed_password := User.hashed_password u;
     User.created_at := User.created_at u;
     User.email_verified := verified;
     User.verification_token := tok;
     User.verification_token_expires := expires |}.

Section App.
Variable settings : Settings.

(** ** app/utils/auth.py *)

Definition SECRET_KEY : string := secret_key settings.
Definition ACCESS_TOKEN_EXPIRE_MINUTES : Z := 30.

Definition verify_password (plain_password : string) (hashed_password : pwhash)
    : result bool :=
  pwd_context_verify plain_password hashed_password.

Definition get_password_hash (password salt : string) : result pwhash :=
  pwd_context_hash password salt.

(** [expires_delta] is falsy when it is [None] or the zero timedelta;
    the sum with the clock raises when it leaves the range of
    [datetime]. *)
Definition create_access_token (data : claims) (expires_delta : option timedelta)
    (now : datetime) : result token :=
  let to_encode := data in
  expire ←
    match expires_delta with
    | Some d => if bool_decide (d = 0)
                then datetime_add now (minutes ACCESS_TOKEN_EXPIRE_MINUTES)
                else datetime_add now d
    | None => datetime_add now (minutes ACCESS_TOKEN_EXPIRE_MINUTES)
    end;
  let to_encode := <["exp" := VInt (timegm expire)]> to_encode in
  Return (jwt_encode to_encode SECRET_KEY).

(** [try: return jwt.decode(...) except JWTError: return None]; any
    other exception would propagate. *)
Definition decode_access_token (tok : token) (now : datetime)
    : result (option claims) :=
  match jwt_decode tok SECRET_KEY now with
  | Return payload => Return (Some payload)
  | Raise JWTError => Return None
  | Raise e => Raise e
  end.

Definition create_verification_token (user_id : Z) (email : string)
    (now : datetime) : token :=
  let expires_delta := hours (verification_token_expire_hours settings) in
  let expire := now + expires_delta in
  let to_encode : claims :=
    {[ "sub" := VStr email; "user_id" := VInt user_id;
       "type" := VStr "email_verification"; "exp" := VInt (timegm expire) ]} in
  jwt_encode to_encode SECRET_KEY.

Definition verify_verification_token (tok : token) (now : datetime)
    : result (option claims) :=
  match jwt_decode tok SECRET_KEY now with
  | Return payload =>
      if bool_decide (payload !! "type" = Some (VStr "email_verification"))
      then Return (Some payload)
      else Return None
  | Raise JWTError => Return None
  | Raise e => Raise e
  end.

(** ** app/routes/auth.py *)

(** The [where] clauses compare a column with the Python value the
    caller passes.  The handlers pass a string for a string column (the
    decoder has refused every subject that is not one) and, from the
    tokens the application signs, an integer for the key; [== None]
    selects no row.  The coercion that SQLite applies to an operand of
    another type is not modelled: such a value selects no row here.
    The properties below either name a row by an integer key or hold
    whichever row a lookup selects. *)
Definition get_user_by_username (username : value) : M (option User.t) :=
  rows ← select_where (fun u => username = VStr (User.username u));
  scalar_one_or_none rows.

Definition get_user_by_email (email : value) : M (option User.t) :=
  rows ← select_where (fun u => email = VStr (User.email u));
  scalar_one_or_none rows.

Definition get_user_by_id (user_id : option value) : M (option User.t) :=
  rows ← select_where (fun u => user_id = Some (VInt (User.id u)));
  scalar_one_or_none rows.

Definition authenticate_user (username password : string) : M (option User.t) :=
  user ← get_user_by_username (VStr username);
  match user with
  | None => mret None
  | Some u =>
      ok ← call (verify_password password (User.hashed_password u));
      if negb ok then mret None else mret (Some u)
  end.

Definition credentials_exception : exn :=
  HTTPException 401 "Could not validate credentials" [("WWW-Authenticate", "Bearer")].

Definition get_current_user (tok : token) (now : datetime) : M User.t :=
  payload ← call (decode_access_token tok now);
  match payload with
  | None => raise credentials_exception
  | Some payload =>
      let username := payload !! "sub" in
      let user_id := payload !! "user_id" in
      match username, user_id with
      | Some username, Some _ =>
          user ← get_user_by_username username;
          match user with
          | None => raise credentials_exception
          | Some user => mret user
          end
      | _, _ => raise credentials_exception
      end
  end.

(** [salt] is the randomness of the hasher; [t_db], [t_tok] and [t_exp]
    are the clock at the insert, inside [create_verification_token] and
    at the computation of the stored expiry.  Sending the mail cannot
    fail the request and leaves the table alone. *)
Definition register (user : UserCreate.t) (salt : string)
    (t_db t_tok t_exp : datetime) : M User.t :=
  existing_user ← get_user_by_username (VStr (UserCreate.username user));
  if bool_decide (is_Some existing_user)
  then raise (HTTPException 400 "Username already registered" [])
  else
    existing_email ← get_user_by_email (VStr (UserCreate.email user));
    if bool_decide (is_Some existing_email)
    then raise (HTTPException 400 "Email already registered" [])
    else
      hashed_password ← call (get_password_hash (UserCreate.password user) salt);
      db_user ← db_add (UserCreate.email user) (UserCreate.username user)
                       hashed_password false t_db;
      let verification_token :=
        create_verification_token (User.id db_user) (User.email db_user) t_tok in
      let db_user :=
        set_verification db_user (User.email_verified db_user)
          (Some verification_token)
          (Some (t_exp + hours (verification_token_expire_hours settings))) in
      _ ← db_flush db_user;
      mret db_user.

Definition login (username password : string) (now : datetime) : M Token :=
  user ← authenticate_user username password;
  match user with
  | None => raise (HTTPException 401 "Incorrect username or password"
       [("WWW-Authenticate", "Bearer")])
  | Some user =>
      let access_token_expires := minutes ACCESS_TOKEN_EXPIRE_MINUTES in
      access_token ←
        call (create_access_token
                {[ "sub" := VStr (User.username user); "user_id" := VInt (User.id user) ]}
                (Some access_token_expires) now);
      mret {| access_token := access_token; token_type := "bearer" |}
  end.

(** [t_dec] is the clock inside [jwt.decode], [t_chk] the clock at the
    comparison with the stored expiry.  A dictionary is falsy when it
    is empty.  In [user.verification_token_expires and
    user.verification_token_expires < datetime.now(timezone.utc)] the
    left operand is the column as the query loaded it, [None] or a naive
    datetime, and the right one is aware. *)
Definition verify_email (tok : token) (t_dec t_chk : datetime) : M MessageResponse :=
  payload ← call (verify_verification_token tok t_dec);
  match payload with
  | None => raise (HTTPException 400 "Invalid or expired verification token" [])
  | Some payload =>
      if bool_decide (payload = ∅)
      then raise (HTTPException 400 "Invalid or expired verification token" [])
      else
        let user_id := payload !! "user_id" in
        let email := payload !! "sub" in
        user ← get_user_by_id user_id;
        match user with
        | None => raise (HTTPException 404 "User not found" [])
        | Some user =>
            if bool_decide (Some (VStr (User.email user)) ≠ email)
            then raise (HTTPException 400 "Invalid verification token" [])
            else if User.email_verified user
            then mret {| message := "Email already verified"; success := true |}
            else
              expired ←
                match User.verification_token_expires user with
                | Some expires =>
                    call (datetime_lt (column_datetime expires) (Aware t_chk))
                | None => mret false
                end;
              if expired : bool
              then raise (HTTPException 400
                     "Verification token has expired. Please request a new one." [])
              else
                _ ← db_flush (set_verification user true None None);
                mret {| message := "Email verified successfully! You can now use all features.";
                        success := true |}
        end
  end.

Definition resend_verification_email (email : string) (t_tok t_exp : datetime)
    : M MessageResponse :=
  user ← get_user_by_email (VStr email);
  match user with
  | None =>
      mret {| message := "If the email exists, a verification link has been sent.";
              success := true |}
  | Some user =>
      if User.email_verified user
      then raise (HTTPException 400 "Email is already verified" [])
      else
        let verification_token :=
          create_verification_token (User.id user) (User.email user) t_tok in
        _ ← db_flush
              (set_verification user (User.email_verified user)
                 (Some verification_token)
                 (Some (t_exp + hours (verification_token_expire_hours settings))));
        mret {| message := "Verification email sent. Please check your inbox.";
                success := true |}
  end.

End App.

(** ** The session dependency: Backendtodo/backend/app/database.py *)

(** [get_db] commits when the handler returns and rolls back when it
    raises: the outcome of a request and the table it leaves. *)
Definition get_db {A : Type} (handler : M A) (db : list User.t)
    : result A * list User.t :=
  match handler db with
  | Return (a, db') => (Return a, db')
  | Raise e => (Raise e, db)
  end.

(** The table a request leaves. *)
Definition table_after {A : Type} (handler : M A) (db : list User.t)
    : list User.t :=
  snd (get_db handler db).

(** ** Predicates of the specification *)

(** The [users] table honours its primary key and unique constraints. *)
Definition store_ok (db : list User.t) : Prop :=
  NoDup (User.id <$> db) /\ NoDup (User.email <$> db) /\
  NoDup (User.username <$> db).

(** The token columns are set together, and cleared once verified. *)
Definition user_inv (u : User.t) : Prop :=
  (is_Some (User.verification_token u) <->
   is_Some (User.verification_token_expires u)) /\
  (User.email_verified u = true ->
   User.verification_token u = None /\ User.verification_token_expires u = None).

(** Claims the decoder accepts besides the expiry: [sub] and [jti], when
    present, are strings; [iat] and [nbf] are integers, [nbf] not after
    the given second; there is no [aud] and no [at_hash]. *)
Definition registered_claims_ok (c : claims) (now_s : Z) : Prop :=
  (forall v, c !! "sub" = Some v -> exists s, v = VStr s) /\
  (forall v, c !! "jti" = Some v -> exists s, v = VStr s) /\
  (forall v, c !! "iat" = Some v -> exists n, v = VInt n) /\
  (forall v, c !! "nbf" = Some v -> exists n, v = VInt n /\ n <= now_s) /\
  c !! "aud" = None /\ c !! "at_hash" = None.

(** The claims [create_verification_token] signs at instant [t0]. *)
Definition verification_claims (settings : Settings) (user_id : Z) (email : string)
    (t0 : datetime) : claims :=
  {[ "sub" := VStr email; "user_id" := VInt user_id;
     "type" := VStr "email_verification";
     "exp" := VInt (timegm (t0 + hours (verification_token_expire_hours settings))) ]}.

(** ** The other routes of app/routes/auth.py *)

Module VerifyResponse.
Record t : Type := {
  valid : bool;
  user_id : Z;
  username : string;
  email_verified : bool
}.
End VerifyResponse.

Section AuthRoutes.
Variable settings : Settings.

Definition login_json (username password : string) (now : datetime) : M Token :=
  user ← authenticate_user username password;
  match user with
  | None => raise (HTTPException 401 "Incorrect username or password"
       [("WWW-Authenticate", "Bearer")])
  | Some user =>
      let access_token_expires := minutes ACCESS_TOKEN_EXPIRE_MINUTES in
      access_token ←
        call (create_access_token settings
                {[ "sub" := VStr (User.username user); "user_id" := VInt (User.id user) ]}
                (Some access_token_expires) now);
      mret {| access_token := access_token; token_type := "bearer" |}
  end.

(** [current_user: User = Depends(get_current_user)]: the gate runs
    first, on the bearer token of the request, and the route gets the
    row it returns. *)
Definition get_current_user_info (tok : token) (now : datetime) : M User.t :=
  current_user ← get_current_user settings tok now;
  mret current_user.

Definition verify_token (tok : token) (now : datetime) : M VerifyResponse.t :=
  current_user ← get_current_user settings tok now;
  mret {| VerifyResponse.valid := true;
          VerifyResponse.user_id := User.id current_user;
          VerifyResponse.username := User.username current_user;
          VerifyResponse.email_verified := User.email_verified current_user |}.

End AuthRoutes.

(** ** app/models/database.py and app/models/schemas.py: tasks *)

Module Task.
Record t : Type := {
  id : Z;
  title : string;
  description : option string;
  completed : bool;
  user_id : Z;
  created_at : datetime;
  updated_at : datetime
}.

#[global] Instance eq_dec : EqDecision t.
Proof. solve_decision. Defined.
End Task.

Module TaskCreate.
Record t : Type := {
  title : string;
  description : option string;
  completed : bool
}.
End TaskCreate.

Module TaskUpdate.
Record t : Type := {
  title : option string;
  description : option string;
  completed : option bool
}.
End TaskUpdate.

(** ** The database session, on the tasks table *)

Definition TM (A : Type) : Type := list Task.t -> result (A * list Task.t).

#[global] Instance TM_ret : MRet TM := fun A a db => Return (a, db).

#[global] Instance TM_bind : MBind TM := fun A B f m db =>
  match m db with
  | Return (a, db') => f a db'
  | Raise e => Raise e
  end.

Definition raise_http {A : Type} (e : exn) : TM A := fun _ => Raise e.

Definition select_tasks (P : Task.t -> Prop) `{forall t, Decision (P t)}
    : TM (list Task.t) :=
  fun db => Return (filter P db, db).

Definition task_scalar_one_or_none (rows : list Task.t) : TM (option Task.t) :=
  match rows with
  | [] => mret None
  | [t] => mret (Some t)
  | _ => raise_http MultipleResultsFound
  end.

Definition next_task_id (db : list Task.t) : Z :=
  1 + foldr (fun t m => Z.max (Task.id t) m) 0 db.

(** [db.add(db_task); await db.flush(); await db.refresh(db_task)]: the
    key is assigned and both timestamps default to the database's clock. *)
Definition task_add (title : string) (description : option string)
    (completed : bool) (user_id : Z) (t_db : datetime) : TM Task.t := fun db =>
  let db_task :=
    {| Task.id := next_task_id db; Task.title := title;
       Task.description := description; Task.completed := completed;
       Task.user_id := user_id; Task.created_at := t_db;
       Task.updated_at := t_db |} in
  Return (db_task, db ++ [db_task]).

(** Assignments to the attributes of a loaded [Task]. *)
Definition set_title (t : Task.t) (v : string) : Task.t :=
  {| Task.id := Task.id t; Task.title := v;
     Task.description := Task.description t; Task.completed := Task.completed t;
     Task.user_id := Task.user_id t; Task.created_at := Task.created_at t;
     Task.updated_at := Task.updated_at t |}.

Definition set_description (t : Task.t) (v : string) : Task.t :=
  {| Task.id := Task.id t; Task.title := Task.title t;
     Task.description := Some v; Task.completed := Task.completed t;
     Task.user_id := Task.user_id t; Task.created_at := Task.created_at t;
     Task.updated_at := Task.updated_at t |}.

Definition set_completed (t : Task.t) (v : bool) : Task.t :=
  {| Task.id := Task.id t; Task.title := Task.title t;
     Task.description := Task.description t; Task.completed := v;
     Task.user_id := Task.user_id t; Task.created_at := Task.created_at t;
     Task.updated_at := Task.updated_at t |}.

Definition set_updated_at (t : Task.t) (v : datetime) : Task.t :=
  {| Task.id := Task.id t; Task.title := Task.title t;
     Task.description := Task.description t; Task.completed := Task.completed t;
     Task.user_id := Task.user_id t; Task.created_at := Task.created_at t;
     Task.updated_at := v |}.

Definition rewrite_task (t : Task.t) (db : list Task.t) : list Task.t :=
  (fun r => if bool_decide (Task.id r = Task.id t) then t else r) <$> db.

(** [await db.flush(); await db.refresh(task)] after assignments turned
    the loaded row [old] into [new]: when no column has a new value no
    UPDATE is sent; otherwise the row is rewritten and [updated_at]
    takes the database's clock ([onupdate]). *)
Definition task_flush (old new : Task.t) (t_db : datetime) : TM Task.t := fun db =>
  if bool_decide (new = old)
  then Return (old, db)
  else
    let row := set_updated_at new t_db in
    Return (row, rewrite_task row db).

(** [await db.delete(task)] *)
Definition task_delete (t : Task.t) : TM unit := fun db =>
  Return (tt, filter (fun r => Task.id r <> Task.id t) db).

(** [order_by(Task.created_at.desc())]; the order among rows created at
    the same instant is the database's choice, here that of the sort. *)
Definition created_desc (a b : Task.t) : Prop :=
  Task.created_at b <= Task.created_at a.

#[global] Instance created_desc_dec (a b : Task.t) : Decision (created_desc a b).
Proof. unfold created_desc. apply _. Defined.

Definition order_by_created_at_desc (rows : list Task.t) : list Task.t :=
  merge_sort created_desc rows.

(** ** Backendtodo/backend/app/routes/tasks.py *)

Definition task_not_found (task_id : Z) : exn :=
  HTTPException 404 ("Task with id " +:+ pretty task_id +:+ " not found") [].

(** [completed] of [TaskCreate] is a [bool], never [None]. *)
Definition create_task (task : TaskCreate.t) (current_user : User.t)
    (t_db : datetime) : TM Task.t :=
  db_task ← task_add (TaskCreate.title task) (TaskCreate.description task)
                     (TaskCreate.completed task) (User.id current_user) t_db;
  mret db_task.

Definition get_tasks (completed : option bool) (current_user : User.t)
    : TM (list Task.t) :=
  rows ← match completed with
         | Some c =>
             select_tasks (fun t =>
               Task.user_id t = User.id current_user /\ Task.completed t = c)
         | None =>
             select_tasks (fun t => Task.user_id t = User.id current_user)
         end;
  mret (order_by_created_at_desc rows).

Definition get_task (task_id : Z) (current_user : User.t) : TM Task.t :=
  rows ← select_tasks (fun t =>
            Task.id t = task_id /\ Task.user_id t = User.id current_user);
  task ← task_scalar_one_or_none rows;
  match task with
  | None => raise_http (task_not_found task_id)
  | Some task => mret task
  end.

Definition update_task (task_id : Z) (task_update : TaskUpdate.t)
    (current_user : User.t) (t_db : datetime) : TM Task.t :=
  rows ← select_tasks (fun t =>
            Task.id t = task_id /\ Task.user_id t = User.id current_user);
  task ← task_scalar_one_or_none rows;
  match task with
  | None => raise_http (task_not_found task_id)
  | Some task =>
      let task1 :=
        match TaskUpdate.title task_update with
        | Some v => set_title task v
        | None => task
        end in
      let task2 :=
        match TaskUpdate.description task_update with
        | Some v => set_description task1 v
        | None => task1
        end in
      let task3 :=
        match TaskUpdate.completed task_update with
        | Some v => set_completed task2 v
        | None => task2
        end in
      task_flush task task3 t_db
  end.

Definition delete_task (task_id : Z) (current_user : User.t) : TM MessageResponse :=
  rows ← select_tasks (fun t =>
            Task.id t = task_id /\ Task.user_id t = User.id current_user);
  task ← task_scalar_one_or_none rows;
  match task with
  | None => raise_http (task_not_found task_id)
  | Some task =>
      _ ← task_delete task;
      mret {| message := "Task " +:+ pretty task_id +:+ " deleted successfully";
              success := true |}
  end.

Definition toggle_task (task_id : Z) (current_user : User.t) (t_db : datetime)
    : TM Task.t :=
  rows ← select_tasks (fun t =>
            Task.id t = task_id /\ Task.user_id t = User.id current_user);
  task ← task_scalar_one_or_none rows;
  match task with
  | None => raise_http (task_not_found task_id)
  | Some task =>
      task_flush task (set_completed task (negb (Task.completed task))) t_db
  end.

(** ** A request to a protected route *)

(** The two tables of the session. *)
Record Database : Type := { users : list User.t; tasks : list Task.t }.

(** A route with [Depends(get_current_user)] and [Depends(get_db)]: the
    gate resolves the bearer token against the users table, the route
    runs on the tasks table, and the session is committed when the route
    returns and rolled back when the gate or the route raises. *)
Definition protected {A : Type} (settings : Settings) (tok : token)
    (now : datetime) (route : User.t -> TM A) (db : Database)
    : result A * Database :=
  match get_current_user settings tok now (users db) with
  | Raise e => (Raise e, db)
  | Return (current_user, users') =>
      match route current_user (tasks db) with
      | Raise e => (Raise e, db)
      | Return (a, tasks') => (Return a, {| users := users'; tasks := tasks' |})
      end
  end.

(** The tasks table honours its primary key. *)
Definition tasks_ok (db : list Task.t) : Prop := NoDup (Task.id <$> db).

(** Every stored hash is a well-formed hash of the scheme. *)
Definition hashes_ok (db : list User.t) : Prop :=
  forall u, u ∈ db -> exists salt pw, User.hashed_password u = Argon2 salt pw.

(** What a task route run by [u] leaves of a table: the rows of others. *)
Definition rows_of_others (u : User.t) (db : list Task.t) : list Task.t :=
  filter (fun t => Task.user_id t <> User.id u) db.

(** ** Sample data

    The defaults of [app/config.py] and the scenario of the
    specification: alice registers, asks for a second link, and follows
    the first one. *)

Definition default_settings : Settings :=
  {| secret_key := "your-secret-key-here-change-in-production";
     verification_token_expire_hours := 24 |}.

Definition alice : UserCreate.t :=
  {| UserCreate.email := "alice@x.com"; UserCreate.username := "alice";
     UserCreate.password := "password123" |}.

(** A user whose username is spelled like their email address. *)
Definition bob : UserCreate.t :=
  {| UserCreate.email := "bob@x.com"; UserCreate.username := "bob@x.com";
     UserCreate.password := "password123" |}.

(** alice registers at second 1 and asks for a new link at second 5. *)
Definition db_registered : list User.t :=
  table_after (register default_settings alice "salt" 1000000 1000000 1000000) [].


Definition T1 : token :=
  create_verification_token default_settings 1 "alice@x.com" 1000000.


(** The row alice's registration writes, the same row after the second
    link was issued, and once the email is verified. *)
Definition alice_row : User.t :=
  {| User.id := 1; User.email := "alice@x.com"; User.username := "alice";
     User.hashed_password := Argon2 "salt" "password123";
     User.created_at := 1000000; User.email_verified := false;
     User.verification_token := Some T1;
     User.verification_token_expires := Some 86401000000 |}.


(** alice's row with the email verified, and a table that holds it. *)
Definition alice_verified : User.t := set_verification alice_row true None None.

Definition db_verified : list User.t := [alice_verified].

Definition db_bob : list User.t :=
  table_after (register default_settings bob "salt" 1000000 1000000 1000000) [].

Definition T_bob : token :=
  create_verification_token default_settings 1 "bob@x.com" 1000000.

Definition bob_row : User.t :=
  {| User.id := 1; User.email := "bob@x.com"; User.username := "bob@x.com";
     User.hashed_password := Argon2 "salt" "password123";
     User.created_at := 1000000; User.email_verified := false;
     User.verification_token := Some T_bob;
     User.verification_token_expires := Some 86401000000 |}.

(** A row whose stored hash is not a hash. *)
Definition carol_row : User.t :=
  {| User.id := 7; User.email := "carol@x.com"; User.username := "carol";
     User.hashed_password := Malformed "password123";
     User.created_at := 1000000; User.email_verified := false;
     User.verification_token := None;
     User.verification_token_expires := None |}.

(** Access tokens as [login] signs them, and one without a subject. *)
Definition access_claims (username : string) (user_id : Z) : claims :=
  {[ "sub" := VStr username; "user_id" := VInt user_id ]}.

(** The token of a signing that returned. *)
Definition signed (r : result token) : token :=
  match r with
  | Return tok => tok
  | Raise _ => NotJWS ""
  end.

Definition A_alice : token :=
  signed (create_access_token default_settings (access_claims "alice" 1)
            (Some (minutes 30)) 1000000).

Definition A_carol : token :=
  signed (create_access_token default_settings (access_claims "carol" 1)
            (Some (minutes 30)) 1000000).

Definition A_alice_99 : token :=
  signed (create_access_token default_settings (access_claims "alice" 99)
            (Some (minutes 30)) 1000000).

Definition A_nosub : token :=
  signed (create_access_token default_settings {[ "user_id" := VInt 1 ]}
            (Some (minutes 30)) 1000000).

(** A token signed a second before the clock's reading. *)
Definition A_stale : token :=
  signed (create_access_token default_settings (access_claims "alice" 1)
            (Some (seconds (-1))) 1000000).

(** A password of 4097 characters, one more than the hasher takes. *)
Definition long_password : string :=
  String.string_of_list_ascii (replicate 4097 (Ascii.ascii_of_nat 120)).


(** A row of an unverified user that holds a token and no expiry: no
    request writes such a row, the columns allow it. *)
Definition erin_row : User.t :=
  {| User.id := 3; User.email := "erin@x.com"; User.username := "erin";
     User.hashed_password := Argon2 "salt" "password123";
     User.created_at := 1000000; User.email_verified := false;
     User.verification_token := Some (NotJWS "another string");
     User.verification_token_expires := None |}.

Definition T_erin : token :=
  create_verification_token default_settings 3 "erin@x.com" 1000000.

(** ** Further predicates and sample data *)

(** The row a successful registration leaves in the table. *)
Definition registered_row (settings : Settings) (user : UserCreate.t)
    (salt : string) (t_db t_tok t_exp : datetime) (db : list User.t) : User.t :=
  {| User.id := next_id db;
     User.email := UserCreate.email user;
     User.username := UserCreate.username user;
     User.hashed_password := Argon2 salt (UserCreate.password user);
     User.created_at := t_db;
     User.email_verified := false;
     User.verification_token :=
       Some (create_verification_token settings (next_id db)
               (UserCreate.email user) t_tok);
     User.verification_token_expires :=
       Some (t_exp + hours (verification_token_expire_hours settings)) |}.

(** The token a successful login at instant [now] returns for a row. *)
Definition login_token (settings : Settings) (u : User.t) (now : datetime) : token :=
  jwt_encode
    (<["exp" := VInt (timegm (now + minutes 30))]>
       (access_claims (User.username u) (User.id u)))
    (SECRET_KEY settings).

(** What a handler may do to a row: the identity columns stay, and a
    verified row stays as it is. *)
Definition row_step (r r' : User.t) : Prop :=
  User.id r' = User.id r /\ User.email r' = User.email r /\
  User.username r' = User.username r /\
  User.hashed_password r' = User.hashed_password r /\
  User.created_at r' = User.created_at r /\
  (User.email_verified r = true -> r' = r).

(** An unverified row holds a stored expiry, as register and resend
    write it. *)
Definition expiry_stored (u : User.t) : Prop :=
  User.email_verified u = false -> is_Some (User.verification_token_expires u).



(** What an update may do to a task: key, owner and creation time stay. *)
Definition task_step (t t' : Task.t) : Prop :=
  Task.id t' = Task.id t /\ Task.user_id t' = Task.user_id t /\
  Task.created_at t' = Task.created_at t.

(** A second registration with alice's email, and sample tasks of
    alice (key 1) and carol (key 7). *)
Definition alice_again : UserCreate.t :=
  {| UserCreate.email := "alice@x.com"; UserCreate.username := "alice2";
     UserCreate.password := "password456" |}.

Definition task_milk : Task.t :=
  {| Task.id := 1; Task.title := "buy milk"; Task.description := None;
     Task.completed := false; Task.user_id := 1;
     Task.created_at := 10000000; Task.updated_at := 10000000 |}.

Definition task_carol : Task.t :=
  {| Task.id := 2; Task.title := "call dave"; Task.description := Some "at noon";
     Task.completed := false; Task.user_id := 7;
     Task.created_at := 20000000; Task.updated_at := 20000000 |}.

Definition task_rent : Task.t :=
  {| Task.id := 3; Task.title := "pay rent"; Task.description := Some "by friday";
     Task.completed := true; Task.user_id := 1;
     Task.created_at := 30000000; Task.updated_at := 30000000 |}.

Definition tasks_sample : list Task.t := [task_milk; task_carol; task_rent].

Definition new_task : TaskCreate.t :=
  {| TaskCreate.title := "water plants"; TaskCreate.description := None;
     TaskCreate.completed := false |}.

Definition rename_task : TaskUpdate.t :=
  {| TaskUpdate.title := Some "buy oat milk"; TaskUpdate.description := None;
     TaskUpdate.completed := None |}.

Definition empty_update : TaskUpdate.t :=
  {| TaskUpdate.title := None; TaskUpdate.description := None;
     TaskUpdate.completed := None |}.

Definition db_sample : Database :=
  {| users := [alice_row; carol_row]; tasks := tasks_sample |}.

(** * Properties *)

(** ** Generic facts about the session monad and the table *)

Lemma bind_unfold {A B : Type} (m : M A) (f : A -> M B) (db : list User.t) :
  (m ≫= f) db = match m db with Return (a, db') => f a db' | Raise e => Raise e end.
Proof. reflexivity. Qed.

Lemma select_where_unfold (P : User.t -> Prop) `{forall u, Decision (P u)} db :
  select_where P db = Return (filter P db, db).
Proof. reflexivity. Qed.

Lemma filter_none {A : Type} (P : A -> Prop) `{forall x, Decision (P x)} (l : list A) :
  (forall x, x ∈ l -> ~ P x) -> filter P l = [].
Proof.
  induction l as [|a l IH]; intros Hall; [reflexivity|].
  rewrite filter_cons_False by (apply Hall; left).
  apply IH. intros x Hx. apply Hall. by right.
Qed.

(** A key that no other row shares selects exactly its row. *)
Lemma filter_unique {B : Type} (f : User.t -> B) (P : User.t -> Prop)
    `{forall x, Decision (P x)} (db : list User.t) (u : User.t) :
  NoDup (f <$> db) -> u ∈ db -> (forall r, P r <-> f r = f u) ->
  filter P db = [u].
Proof.
  intros Hnd Hin HP. induction db as [|a db IH]; [by apply elem_of_nil in Hin|].
  rewrite fmap_cons in Hnd. apply NoDup_cons in Hnd as [Hna Hnd].
  apply elem_of_cons in Hin as [->|Hin].
  - rewrite filter_cons_True by (by apply HP).
    f_equal. apply filter_none. intros r Hr HPr. apply Hna.
    apply HP in HPr. rewrite <- HPr. apply list_elem_of_fmap. eauto.
  - rewrite filter_cons_False; [by apply IH|].
    intros HPa. apply Hna. apply HP in HPa. rewrite HPa.
    apply list_elem_of_fmap. eauto.
Qed.

Lemma get_user_by_username_found db u :
  store_ok db -> u ∈ db ->
  get_user_by_username (VStr (User.username u)) db = Return (Some u, db).
Proof.
  intros (_ & _ & Hnd) Hin. unfold get_user_by_username.
  rewrite bind_unfold, select_where_unfold.
  rewrite (filter_unique User.username _ db u Hnd Hin); [reflexivity|].
  intros r. split; [intros [= ->]; reflexivity | intros ->; reflexivity].
Qed.

Lemma get_user_by_username_absent db name :
  (forall r, r ∈ db -> User.username r <> name) ->
  get_user_by_username (VStr name) db = Return (None, db).
Proof.
  intros Habs. unfold get_user_by_username.
  rewrite bind_unfold, select_where_unfold, filter_none; [reflexivity|].
  intros r Hr [= ->]. by apply (Habs r).
Qed.

Lemma get_user_by_email_found db u :
  store_ok db -> u ∈ db ->
  get_user_by_email (VStr (User.email u)) db = Return (Some u, db).
Proof.
  intros (_ & Hnd & _) Hin. unfold get_user_by_email.
  rewrite bind_unfold, select_where_unfold.
  rewrite (filter_unique User.email _ db u Hnd Hin); [reflexivity|].
  intros r. split; [intros [= ->]; reflexivity | intros ->; reflexivity].
Qed.

Lemma get_user_by_email_absent db e :
  (forall r, r ∈ db -> User.email r <> e) ->
  get_user_by_email (VStr e) db = Return (None, db).
Proof.
  intros Habs. unfold get_user_by_email.
  rewrite bind_unfold, select_where_unfold, filter_none; [reflexivity|].
  intros r Hr [= ->]. by apply (Habs r).
Qed.

Lemma get_user_by_id_found db u :
  store_ok db -> u ∈ db ->
  get_user_by_id (Some (VInt (User.id u))) db = Return (Some u, db).
Proof.
  intros (Hnd & _ & _) Hin. unfold get_user_by_id.
  rewrite bind_unfold, select_where_unfold.
  rewrite (filter_unique User.id _ db u Hnd Hin); [reflexivity|].
  intros r. split; [intros [= ->]; reflexivity | intros ->; reflexivity].
Qed.

(** A query never changes the table, whatever it finds. *)
Lemma scalar_one_or_none_db rows db r db' :
  scalar_one_or_none rows db = Return (r, db') -> db' = db.
Proof. destruct rows as [|? [|? ?]]; intros [= _ <-] || intros [=]; reflexivity. Qed.

Lemma get_user_by_username_db v db r db' :
  get_user_by_username v db = Return (r, db') -> db' = db.
Proof. apply scalar_one_or_none_db. Qed.

Lemma get_user_by_email_db v db r db' :
  get_user_by_email v db = Return (r, db') -> db' = db.
Proof. apply scalar_one_or_none_db. Qed.

Lemma get_user_by_id_db v db r db' :
  get_user_by_id v db = Return (r, db') -> db' = db.
Proof. apply scalar_one_or_none_db. Qed.

(** What a query returns is a row of the table. *)
Lemma scalar_one_or_none_filter (P : User.t -> Prop) `{forall x, Decision (P x)}
    db u db' :
  scalar_one_or_none (filter P db) db = Return (Some u, db') -> u ∈ db /\ P u.
Proof.
  destruct (filter P db) as [|a [|b l]] eqn:E; simpl; try discriminate.
  intros [= -> _].
  assert (Hu : u ∈ filter P db) by (rewrite E; by left).
  apply list_elem_of_filter in Hu as [HP Hin]. by split.
Qed.

Lemma get_user_by_id_elem v db u db' :
  get_user_by_id v db = Return (Some u, db') -> u ∈ db /\ v = Some (VInt (User.id u)).
Proof. apply (scalar_one_or_none_filter (fun r => v = Some (VInt (User.id r)))). Qed.

Lemma get_user_by_email_elem v db u db' :
  get_user_by_email v db = Return (Some u, db') -> u ∈ db /\ v = VStr (User.email u).
Proof. apply (scalar_one_or_none_filter (fun r => v = VStr (User.email r))). Qed.

(** ** The token codec *)

Lemma timegm_mono (a b : datetime) : a <= b -> timegm a <= timegm b.
Proof. intros H. unfold timegm. apply Z.div_le_mono; lia. Qed.

Lemma timegm_minus_second (now : datetime) :
  timegm (now + seconds (-1)) = timegm now - 1.
Proof.
  unfold timegm, seconds.
  replace (now + -1 * 1000000) with (now + (-1) * 1000000) by lia.
  rewrite Z.div_add by lia. lia.
Qed.

Lemma jwt_decode_raises tok key now e :
  jwt_decode tok key now = Raise e -> e = JWTError.
Proof.
  destruct tok as [s|alg c k]; simpl; [by intros [= <-]|].
  repeat case_match; by intros [= <-] || discriminate.
Qed.

Lemma jwt_decode_returns tok key now p :
  jwt_decode tok key now = Return p ->
  tok = JWS ALGORITHM p key /\ validate_claims p (timegm now) = true.
Proof.
  destruct tok as [s|alg c k]; simpl; [discriminate|].
  destruct (bool_decide (alg = ALGORITHM)) eqn:Ea; simpl; [|discriminate].
  destruct (bool_decide (k = key)) eqn:Ek; simpl; [|discriminate].
  destruct (validate_claims c (timegm now)) eqn:Ev; [|discriminate].
  intros [= <-]. apply bool_decide_eq_true in Ea, Ek. by subst.
Qed.

Lemma jwt_decode_encode c key now :
  jwt_decode (jwt_encode c key) key now =
  if validate_claims c (timegm now) then Return c else Raise JWTError.
Proof.
  unfold jwt_encode. simpl.
  rewrite !bool_decide_eq_true_2 by reflexivity. reflexivity.
Qed.

Lemma jwt_decode_wrong_key alg c k key now :
  k <> key -> jwt_decode (JWS alg c k) key now = Raise JWTError.
Proof.
  intros Hk. simpl. rewrite (bool_decide_eq_false_2 (k = key)) by done.
  by rewrite andb_false_r.
Qed.

Lemma validate_claims_exp_false c now_s e :
  c !! "exp" = Some (VInt e) -> e < now_s -> validate_claims c now_s = false.
Proof.
  intros Hexp Hlt. unfold validate_claims.
  assert (validate_exp c now_s = false) as ->.
  { unfold validate_exp. rewrite Hexp. simpl.
    apply negb_false_iff, Z.ltb_lt, Hlt. }
  by rewrite andb_false_r.
Qed.

Lemma validate_claims_sub c now_s v :
  validate_claims c now_s = true -> c !! "sub" = Some v -> exists s, v = VStr s.
Proof.
  unfold validate_claims. rewrite !andb_true_iff.
  intros [[[_ Hsub] _] _] Hv. unfold validate_sub in Hsub. rewrite Hv in Hsub.
  destruct v; try discriminate. eauto.
Qed.

Lemma str_claim_ok (c : claims) (k : string) :
  (forall v, c !! k = Some v -> exists s, v = VStr s) ->
  match c !! k with None => true | Some v => is_str v end = true.
Proof.
  intros H. destruct (c !! k) as [v|]; [|reflexivity].
  by destruct (H v eq_refl) as [s ->].
Qed.

Lemma validate_claims_ok c now_s e :
  registered_claims_ok c now_s -> now_s <= e ->
  validate_claims (<["exp" := VInt e]> c) now_s = true.
Proof.
  intros (Hsub & Hjti & Hiat & Hnbf & Haud & Hat) He.
  unfold validate_claims. rewrite !andb_true_iff. repeat split.
  - unfold validate_iat. rewrite lookup_insert_ne by done.
    destruct (c !! "iat") as [v|] eqn:E; [|reflexivity].
    by destruct (Hiat v eq_refl) as [n ->].
  - unfold validate_nbf. rewrite lookup_insert_ne by done.
    destruct (c !! "nbf") as [v|] eqn:E; [|reflexivity].
    destruct (Hnbf v eq_refl) as [n [-> Hn]]. simpl.
    apply negb_true_iff, Z.ltb_ge, Hn.
  - unfold validate_exp. rewrite lookup_insert_eq. simpl.
    apply negb_true_iff, Z.ltb_ge, He.
  - unfold validate_aud. by rewrite lookup_insert_ne, Haud.
  - unfold validate_sub. rewrite lookup_insert_ne by done. by apply str_claim_ok.
  - unfold validate_jti. rewrite lookup_insert_ne by done. by apply str_claim_ok.
  - unfold validate_at_hash. by rewrite lookup_insert_ne, Hat.
Qed.

(** Sums of a datetime and a timedelta. *)
Lemma datetime_add_representable d delta :
  representable (d + delta) -> datetime_add d delta = Return (d + delta).
Proof. intros H. unfold datetime_add. by rewrite bool_decide_eq_true_2. Qed.

Lemma datetime_add_overflow d delta :
  ~ representable (d + delta) -> datetime_add d delta = Raise OverflowError.
Proof. intros H. unfold datetime_add. by rewrite bool_decide_eq_false_2. Qed.

Lemma datetime_add_returns d delta e :
  datetime_add d delta = Return e -> e = d + delta /\ representable (d + delta).
Proof.
  unfold datetime_add. case_bool_decide as H; [|discriminate].
  intros [= <-]. by split.
Qed.

Lemma datetime_add_raises d delta e :
  datetime_add d delta = Raise e -> e = OverflowError.
Proof. unfold datetime_add. case_bool_decide; [discriminate|]. by intros [= <-]. Qed.

(** The hasher on a secret. *)
Lemma validate_secret_ok secret :
  len secret <= MAX_PASSWORD_SIZE -> validate_secret secret = Return tt.
Proof. intros H. unfold validate_secret. rewrite bool_decide_eq_false_2; [done|lia]. Qed.

Lemma validate_secret_oversize secret :
  MAX_PASSWORD_SIZE < len secret -> validate_secret secret = Raise PasswordSizeError.
Proof. intros H. unfold validate_secret. by rewrite bool_decide_eq_true_2. Qed.

Lemma get_password_hash_spec password salt :
  get_password_hash password salt =
    if bool_decide (MAX_PASSWORD_SIZE < len password)
    then Raise PasswordSizeError
    else Return (Argon2 salt password).
Proof.
  unfold get_password_hash, pwd_context_hash, validate_secret.
  by case_bool_decide.
Qed.

Lemma verify_password_spec secret salt password :
  verify_password secret (Argon2 salt password) =
    if bool_decide (MAX_PASSWORD_SIZE < len secret)
    then Raise PasswordSizeError
    else Return (bool_decide (secret = password)).
Proof.
  unfold verify_password, pwd_context_verify, validate_secret.
  by destruct (bool_decide (MAX_PASSWORD_SIZE < len secret)).
Qed.

Section Codec.
Variable settings : Settings.

(** What [create_access_token] returns, when it returns. *)
Lemma create_access_token_ttl (c : claims) (ttl : timedelta) (now : datetime) :
  ttl <> 0 ->
  create_access_token settings c (Some ttl) now =
    if bool_decide (representable (now + ttl))
    then Return (jwt_encode (<["exp" := VInt (timegm (now + ttl))]> c)
                   (SECRET_KEY settings))
    else Raise OverflowError.
Proof.
  intros Httl. unfold create_access_token.
  rewrite bool_decide_eq_false_2 by done.
  unfold datetime_add, representable. by case_bool_decide.
Qed.

Lemma create_access_token_default (c : claims) (d : option timedelta) (now : datetime) :
  d = None \/ d = Some 0 ->
  create_access_token settings c d now =
    create_access_token settings c (Some (minutes 30)) now.
Proof.
  intros [-> | ->]; unfold create_access_token; [reflexivity|].
  rewrite bool_decide_eq_true_2 by done.
  by rewrite (bool_decide_eq_false_2 (minutes 30 = 0)) by done.
Qed.

Lemma decode_access_token_spec tok now :
  decode_access_token settings tok now =
  Return (match jwt_decode tok (SECRET_KEY settings) now with
          | Return payload => Some payload
          | Raise _ => None
          end).
Proof.
  unfold decode_access_token.
  destruct (jwt_decode tok (SECRET_KEY settings) now) as [p|e] eqn:E; [reflexivity|].
  by rewrite (jwt_decode_raises _ _ _ _ E).
Qed.

Lemma decode_access_token_Some tok now p :
  decode_access_token settings tok now = Return (Some p) ->
  jwt_decode tok (SECRET_KEY settings) now = Return p.
Proof.
  rewrite decode_access_token_spec.
  destruct (jwt_decode tok (SECRET_KEY settings) now); by intros [= ->].
Qed.

(** A subject that reaches the handlers is a string: the decoder has
    refused every other one. *)
Lemma decoded_sub_is_string tok now p v :
  decode_access_token settings tok now = Return (Some p) ->
  p !! "sub" = Some v -> exists s, v = VStr s.
Proof.
  intros Hdec%decode_access_token_Some Hsub.
  apply jwt_decode_returns in Hdec as [_ Hval].
  by apply (validate_claims_sub p (timegm now)).
Qed.

Lemma verify_verification_token_Some tok now p :
  verify_verification_token settings tok now = Return (Some p) ->
  jwt_decode tok (SECRET_KEY settings) now = Return p /\
  p !! "type" = Some (VStr "email_verification").
Proof.
  unfold verify_verification_token.
  destruct (jwt_decode tok (SECRET_KEY settings) now) as [q|e] eqn:E.
  - case_bool_decide as Ht; intros [= <-]. by split.
  - rewrite (jwt_decode_raises _ _ _ _ E). discriminate.
Qed.

(** The gate on a token the codec refuses. *)
Lemma get_current_user_invalid tok now db :
  decode_access_token settings tok now = Return None ->
  get_db (get_current_user settings tok now) db = (Raise credentials_exception, db).
Proof.
  intros H. unfold get_db, get_current_user. rewrite bind_unfold.
  unfold call. rewrite H. reflexivity.
Qed.

(** The gate on a token the codec accepts. *)
Lemma get_current_user_payload tok now db p :
  decode_access_token settings tok now = Return (Some p) ->
  get_current_user settings tok now db =
  match p !! "sub", p !! "user_id" with
  | Some username, Some _ =>
      match get_user_by_username username db with
      | Return (Some user, db') => Return (user, db')
      | Return (None, _) => Raise credentials_exception
      | Raise e => Raise e
      end
  | _, _ => Raise credentials_exception
  end.
Proof.
  intros H. unfold get_current_user. rewrite bind_unfold.
  unfold call. rewrite H.
  destruct (p !! "sub") as [username|]; [|reflexivity].
  destruct (p !! "user_id") as [uid|]; [|reflexivity].
  rewrite bind_unfold.
  destruct (get_user_by_username username db) as [[[user|] db']|e]; reflexivity.
Qed.

(** C5, as amended.  For every claims mapping from strings to JSON
    scalars (strings, integers, booleans) whose registered claims are
    well-formed ([sub] and [jti] strings, [iat] and [nbf] integers with
    [nbf] not in the future, no [aud], no [at_hash]) and every positive
    ttl: when the clock plus the ttl is still a datetime, signing returns
    a token, and parsing it at the instant of signing succeeds and
    yields the whole mapping with [exp] set to the computed expiry in
    whole seconds; when the sum is past [datetime.max], signing raises
    [OverflowError] and there is no token to parse. *)
Theorem sign_parse_roundtrip (c : claims) (ttl : timedelta) (now : datetime) :
  0 < ttl ->
  registered_claims_ok c (timegm now) ->
  (representable (now + ttl) ->
   exists tok,
     create_access_token settings c (Some ttl) now = Return tok /\
     decode_access_token settings tok now =
       Return (Some (<["exp" := VInt (timegm (now + ttl))]> c))) /\
  (~ representable (now + ttl) ->
   create_access_token settings c (Some ttl) now = Raise OverflowError).
Proof.
  intros Httl Hc.
  rewrite create_access_token_ttl by lia. split; intros Hr.
  - rewrite bool_decide_eq_true_2 by done. eexists. split; [reflexivity|].
    rewrite decode_access_token_spec.
    rewrite jwt_decode_encode, validate_claims_ok; [reflexivity|done|].
    apply timegm_mono. lia.
  - by rewrite bool_decide_eq_false_2.
Qed.

(** C6.  A token signed under another secret, and a token signed with
    a ttl of minus one second and parsed at the instant of signing or
    later, are both refused by the parser, which returns [None] and no
    claims at all, and the gate answers 401 and leaves the table as it
    was. *)
Theorem parse_rejects_bad_tokens :
  (forall alg (c : claims) key now db,
     key <> SECRET_KEY settings ->
     decode_access_token settings (JWS alg c key) now = Return None /\
     get_db (get_current_user settings (JWS alg c key) now) db =
       (Raise credentials_exception, db)) /\
  (forall (c : claims) now now' db tok,
     now <= now' ->
     create_access_token settings c (Some (seconds (-1))) now = Return tok ->
     decode_access_token settings tok now' = Return None /\
     get_db (get_current_user settings tok now') db =
       (Raise credentials_exception, db)).
Proof.
  split.
  - intros alg c key now db Hk.
    assert (H : decode_access_token settings (JWS alg c key) now = Return None).
    { rewrite decode_access_token_spec, jwt_decode_wrong_key; done. }
    split; [exact H | by apply get_current_user_invalid].
  - intros c now now' db tok Hle Htok.
    rewrite create_access_token_ttl in Htok by (unfold seconds; lia).
    case_bool_decide as Hr; [|discriminate]. injection Htok as <-.
    match goal with |- decode_access_token settings ?t _ = _ /\ _ =>
      assert (H : decode_access_token settings t now' = Return None)
    end.
    { rewrite decode_access_token_spec.
      rewrite jwt_decode_encode.
      rewrite (validate_claims_exp_false _ _ (timegm (now + seconds (-1)))); [done| |].
      - apply lookup_insert_eq.
      - rewrite timegm_minus_second. pose proof (timegm_mono _ _ Hle). lia. }
    split; [exact H | by apply get_current_user_invalid].
Qed.

(** C7.  A token the parser accepts but whose claims lack [sub] or
    lack [user_id] is answered 401; so is one whose [sub] names no row
    of the table, whatever its [user_id]; and a token whose [sub] names
    a row is resolved to that row, whatever its [user_id]: the lookup
    is by username. *)
Theorem gate_requires_sub_and_user_id tok now db p :
  decode_access_token settings tok now = Return (Some p) ->
  (p !! "sub" = None \/ p !! "user_id" = None ->
   get_db (get_current_user settings tok now) db =
     (Raise credentials_exception, db)) /\
  (forall name,
     p !! "sub" = Some (VStr name) ->
     (forall r, r ∈ db -> User.username r <> name) ->
     get_db (get_current_user settings tok now) db =
       (Raise credentials_exception, db)) /\
  (forall u uid,
     store_ok db -> u ∈ db ->
     p !! "sub" = Some (VStr (User.username u)) ->
     p !! "user_id" = Some uid ->
     get_db (get_current_user settings tok now) db = (Return u, db)).
Proof.
  intros Hdec. unfold get_db.
  rewrite (get_current_user_payload _ _ _ _ Hdec).
  split; [|split].
  - intros [-> | Hid]; [reflexivity|]. rewrite Hid. by destruct (p !! "sub").
  - intros name Hsub Habs. rewrite Hsub.
    destruct (p !! "user_id"); [|reflexivity].
    by rewrite get_user_by_username_absent.
  - intros u uid Hok Hin Hsub Hid. rewrite Hsub, Hid.
    by rewrite get_user_by_username_found.
Qed.

End Codec.

(** ** Rewriting a row *)

Lemma key_unique {B : Type} (f : User.t -> B) (db : list User.t) x y :
  NoDup (f <$> db) -> x ∈ db -> y ∈ db -> f x = f y -> x = y.
Proof.
  induction db as [|a db IH]; intros Hnd Hx Hy Hf; [by apply elem_of_nil in Hx|].
  rewrite fmap_cons in Hnd. apply NoDup_cons in Hnd as [Hna Hnd].
  apply elem_of_cons in Hx as [->|Hx]; apply elem_of_cons in Hy as [->|Hy].
  - reflexivity.
  - exfalso. apply Hna. rewrite Hf. apply list_elem_of_fmap. eauto.
  - exfalso. apply Hna. rewrite <- Hf. apply list_elem_of_fmap. eauto.
  - by apply IH.
Qed.

Lemma rewrite_row_inv u db :
  Forall user_inv db -> user_inv u -> Forall user_inv (rewrite_row u db).
Proof.
  intros Hdb Hu. unfold rewrite_row. apply Forall_fmap.
  eapply Forall_impl; [exact Hdb|]. intros r Hr. simpl. by case_bool_decide.
Qed.

Lemma rewrite_row_elem u u' db :
  u ∈ db -> User.id u' = User.id u -> u' ∈ rewrite_row u' db.
Proof.
  intros Hin Hid. unfold rewrite_row. apply list_elem_of_fmap.
  exists u. split; [|exact Hin]. by rewrite bool_decide_eq_true_2.
Qed.

(** A column the assignment leaves alone is the same column after. *)
Lemma rewrite_row_proj {B : Type} (f : User.t -> B) u u' db :
  NoDup (User.id <$> db) -> u ∈ db ->
  User.id u' = User.id u -> f u' = f u ->
  f <$> rewrite_row u' db = f <$> db.
Proof.
  intros Hnd Hin Hid Hf. unfold rewrite_row. rewrite <- list_fmap_compose.
  apply Forall_fmap_ext_1, Forall_forall. intros r Hr. simpl.
  case_bool_decide as E; [|reflexivity].
  rewrite Hf. f_equal. symmetry. apply (key_unique User.id db); congruence.
Qed.

Lemma rewrite_row_store_ok u u' db :
  store_ok db -> u ∈ db ->
  User.id u' = User.id u -> User.email u' = User.email u ->
  User.username u' = User.username u ->
  store_ok (rewrite_row u' db).
Proof.
  intros (Hid & Hem & Hun) Hin E1 E2 E3. unfold store_ok.
  by rewrite !(rewrite_row_proj _ u u' db Hid Hin E1).
Qed.

(** ** The verification lifecycle *)

Section Lifecycle.
Variable settings : Settings.


(** The parser of verification tokens never raises. *)
Lemma verify_verification_token_returns tok now :
  exists r, verify_verification_token settings tok now = Return r.
Proof.
  unfold verify_verification_token.
  destruct (jwt_decode tok (SECRET_KEY settings) now) as [p|e] eqn:E.
  - case_bool_decide; eauto.
  - rewrite (jwt_decode_raises _ _ _ _ E). eauto.
Qed.

Lemma get_user_by_id_raises v db e :
  get_user_by_id v db = Raise e -> e = MultipleResultsFound.
Proof.
  unfold get_user_by_id. rewrite bind_unfold, select_where_unfold.
  destruct (filter _ db) as [|? [|? ?]]; try discriminate. by intros [= <-].
Qed.

(** The comparison of a stored expiry with the clock never returns. *)
Lemma stored_expiry_comparison (expires t_chk : datetime) :
  datetime_lt (column_datetime expires) (Aware t_chk) = Raise TypeError.
Proof. reflexivity. Qed.

(** What [verify_email] does once the token has parsed and its
    [user_id] has selected a row. *)
Lemma verify_email_user tok t_dec t_chk db p u :
  verify_verification_token settings tok t_dec = Return (Some p) ->
  get_user_by_id (p !! "user_id") db = Return (Some u, db) ->
  verify_email settings tok t_dec t_chk db =
    if bool_decide (Some (VStr (User.email u)) ≠ p !! "sub")
    then Raise (HTTPException 400 "Invalid verification token" [])
    else if User.email_verified u
    then Return ({| message := "Email already verified"; success := true |}, db)
    else match User.verification_token_expires u with
         | Some _ => Raise TypeError
         | None =>
             Return
               ({| message := "Email verified successfully! You can now use all features.";
                   success := true |},
                rewrite_row (set_verification u true None None) db)
         end.
Proof.
  intros Htok Huser. unfold verify_email. rewrite bind_unfold.
  unfold call. rewrite Htok.
  apply verify_verification_token_Some in Htok as [_ Htype].
  rewrite bool_decide_eq_false_2; [|intros ->; by rewrite lookup_empty in Htype].
  rewrite bind_unfold, Huser.
  case_bool_decide; [reflexivity|].
  destruct (User.email_verified u); [reflexivity|].
  rewrite bind_unfold.
  destruct (User.verification_token_expires u) as [expires|]; reflexivity.
Qed.


End Lifecycle.

(** ** The handlers *)

Section Handlers.
Variable settings : Settings.

Lemma authenticate_user_db username password db r db' :
  authenticate_user username password db = Return (r, db') -> db' = db.
Proof.
  unfold authenticate_user. rewrite bind_unfold.
  destruct (get_user_by_username (VStr username) db) as [[[u|] db1]|e] eqn:E;
    [| |discriminate].
  - apply get_user_by_username_db in E as ->. rewrite bind_unfold. unfold call.
    destruct (verify_password password (User.hashed_password u)) as [[]|];
      simpl; by intros [= _ <-] || discriminate.
  - apply get_user_by_username_db in E as ->. by intros [= _ <-].
Qed.

(** Login never writes. *)
Lemma login_readonly username password now db :
  table_after (login settings username password now) db = db.
Proof.
  unfold table_after, get_db, login. rewrite bind_unfold.
  destruct (authenticate_user username password db) as [[[u|] db1]|e] eqn:E;
    [|reflexivity|reflexivity].
  apply authenticate_user_db in E as ->. rewrite bind_unfold. unfold call.
  by destruct (create_access_token settings _ _ now).
Qed.

Lemma verify_email_inv tok t_dec t_chk db :
  Forall user_inv db ->
  Forall user_inv (table_after (verify_email settings tok t_dec t_chk) db).
Proof.
  intros Hdb. unfold table_after, get_db, verify_email.
  rewrite bind_unfold. unfold call.
  destruct (verify_verification_token settings tok t_dec) as [[p|]|e]; try exact Hdb.
  case_bool_decide; [exact Hdb|]. rewrite bind_unfold.
  destruct (get_user_by_id (p !! "user_id") db) as [[[u|] db1]|e] eqn:E;
    try exact Hdb.
  apply get_user_by_id_db in E as ->.
  case_bool_decide; [exact Hdb|].
  destruct (User.email_verified u); [exact Hdb|].
  rewrite bind_unfold.
  destruct (User.verification_token_expires u) as [expires|]; [exact Hdb|].
  simpl. apply rewrite_row_inv; [exact Hdb|]. split; [|done].
  simpl; split; intros [? [=]].
Qed.

Lemma resend_inv email t_tok t_exp db :
  Forall user_inv db ->
  Forall user_inv (table_after (resend_verification_email settings email t_tok t_exp) db).
Proof.
  intros Hdb. unfold table_after, get_db, resend_verification_email.
  rewrite bind_unfold.
  destruct (get_user_by_email (VStr email) db) as [[r db1]|e] eqn:E;
    [|exact Hdb].
  apply get_user_by_email_db in E as ->.
  destruct r as [u|]; [|exact Hdb].
  destruct (User.email_verified u) eqn:Ev; simpl; [exact Hdb|].
  apply rewrite_row_inv; [exact Hdb|]. split; simpl.
  - split; intros _; eauto.
  - discriminate.
Qed.

Lemma register_inv user salt t_db t_tok t_exp db :
  Forall user_inv db ->
  Forall user_inv (table_after (register settings user salt t_db t_tok t_exp) db).
Proof.
  intros Hdb. unfold table_after, get_db, register. rewrite bind_unfold.
  destruct (get_user_by_username _ db) as [[r1 db1]|e] eqn:E1; [|exact Hdb].
  apply get_user_by_username_db in E1 as ->.
  case_bool_decide; [exact Hdb|]. rewrite bind_unfold.
  destruct (get_user_by_email _ db) as [[r2 db2]|e] eqn:E2; [|exact Hdb].
  apply get_user_by_email_db in E2 as ->.
  case_bool_decide; [exact Hdb|]. rewrite bind_unfold.
  unfold call. rewrite get_password_hash_spec.
  case_bool_decide; [exact Hdb|]. rewrite bind_unfold.
  unfold db_add. case_bool_decide; [exact Hdb|]. simpl.
  apply rewrite_row_inv.
  - apply Forall_app. split; [exact Hdb|]. apply Forall_singleton.
    split; simpl; [|done]. split; intros [? [=]].
  - split; simpl; [|discriminate]. split; intros _; eauto.
Qed.

(** The unique constraints are kept as well, so [store_ok] holds of
    every table the handlers can reach from an empty one. *)
Lemma next_id_fresh db r : r ∈ db -> User.id r < next_id db.
Proof.
  unfold next_id. induction db as [|a db IH]; intros Hin;
    [by apply elem_of_nil in Hin|].
  simpl. apply elem_of_cons in Hin as [->|Hin]; [lia|].
  specialize (IH Hin). lia.
Qed.

Lemma scalar_one_or_none_None rows db db' :
  scalar_one_or_none rows db = Return (None, db') -> rows = [].
Proof. by destruct rows as [|? [|? ?]]. Qed.

Lemma filter_nil_not {A : Type} (P : A -> Prop) `{forall x, Decision (P x)}
    (l : list A) x :
  filter P l = [] -> x ∈ l -> ~ P x.
Proof.
  intros Hnil Hin HP.
  assert (Hx : x ∈ filter P l) by (by apply list_elem_of_filter).
  rewrite Hnil in Hx. by apply elem_of_nil in Hx.
Qed.

Lemma store_ok_snoc db nu :
  store_ok db ->
  (forall r, r ∈ db -> User.id r <> User.id nu) ->
  (forall r, r ∈ db -> User.email r <> User.email nu) ->
  (forall r, r ∈ db -> User.username r <> User.username nu) ->
  store_ok (db ++ [nu]).
Proof.
  intros (Hid & Hem & Hun) Fid Fem Fun. unfold store_ok.
  rewrite !fmap_app. simpl.
  repeat split; apply NoDup_app; (split; [assumption|]);
    (split; [|apply NoDup_singleton]);
    intros x (r & -> & Hr)%list_elem_of_fmap Hx%list_elem_of_singleton;
    naive_solver.
Qed.

Lemma register_store_ok user salt t_db t_tok t_exp db :
  store_ok db ->
  store_ok (table_after (register settings user salt t_db t_tok t_exp) db).
Proof.
  intros Hdb. unfold table_after, get_db, register. rewrite bind_unfold.
  destruct (get_user_by_username _ db) as [[r1 db1]|e] eqn:E1; [|exact Hdb].
  pose proof (get_user_by_username_db _ _ _ _ E1) as ->.
  case_bool_decide as N1; [exact Hdb|]. rewrite bind_unfold.
  destruct (get_user_by_email _ db) as [[r2 db2]|e] eqn:E2; [|exact Hdb].
  pose proof (get_user_by_email_db _ _ _ _ E2) as ->.
  case_bool_decide as N2; [exact Hdb|]. rewrite bind_unfold.
  unfold call. rewrite get_password_hash_spec.
  case_bool_decide; [exact Hdb|]. rewrite bind_unfold.
  unfold db_add. case_bool_decide; [exact Hdb|]. simpl.
  destruct r1 as [?|]; [by destruct N1|]. destruct r2 as [?|]; [by destruct N2|].
  apply scalar_one_or_none_None in E1, E2.
  match goal with |- store_ok (rewrite_row ?u' (_ ++ [?nu])) =>
    apply (rewrite_row_store_ok nu u'); try reflexivity;
      [|apply elem_of_app; right; by apply list_elem_of_singleton]
  end.
  apply store_ok_snoc; [exact Hdb| | |]; simpl; intros r Hr.
  - pose proof (next_id_fresh db r Hr). lia.
  - intros Heq. apply (filter_nil_not _ _ r E2 Hr). by rewrite Heq.
  - intros Heq. apply (filter_nil_not _ _ r E1 Hr). by rewrite Heq.
Qed.

Lemma verify_email_store_ok tok t_dec t_chk db :
  store_ok db ->
  store_ok (table_after (verify_email settings tok t_dec t_chk) db).
Proof.
  intros Hdb. unfold table_after, get_db, verify_email.
  rewrite bind_unfold. unfold call.
  destruct (verify_verification_token settings tok t_dec) as [[p|]|e]; try exact Hdb.
  case_bool_decide; [exact Hdb|]. rewrite bind_unfold.
  destruct (get_user_by_id (p !! "user_id") db) as [[[u|] db1]|e] eqn:E;
    try exact Hdb.
  pose proof (get_user_by_id_db _ _ _ _ E) as ->.
  apply get_user_by_id_elem in E as [Hin _].
  case_bool_decide; [exact Hdb|].
  destruct (User.email_verified u); [exact Hdb|].
  rewrite bind_unfold.
  destruct (User.verification_token_expires u) as [expires|]; [exact Hdb|].
  simpl. by apply (rewrite_row_store_ok u).
Qed.

Lemma resend_store_ok email t_tok t_exp db :
  store_ok db ->
  store_ok (table_after (resend_verification_email settings email t_tok t_exp) db).
Proof.
  intros Hdb. unfold table_after, get_db, resend_verification_email.
  rewrite bind_unfold.
  destruct (get_user_by_email (VStr email) db) as [[r db1]|e] eqn:E;
    [|exact Hdb].
  pose proof (get_user_by_email_db _ _ _ _ E) as ->.
  destruct r as [u|]; [|exact Hdb].
  apply get_user_by_email_elem in E as [Hin _].
  destruct (User.email_verified u); simpl; [exact Hdb|].
  by apply (rewrite_row_store_ok u).
Qed.

(** C4.  Register, login, verify-email and resend-verification each
    leave a table whose rows all have the two token columns set together
    or unset together, and both unset when [email_verified] holds,
    provided the table they start from is such a table; this covers the
    requests that fail, which leave the table as it was. *)
Theorem operations_preserve_user_invariant db :
  Forall user_inv db ->
  (forall user salt t_db t_tok t_exp,
     Forall user_inv (table_after (register settings user salt t_db t_tok t_exp) db)) /\
  (forall username password now,
     Forall user_inv (table_after (login settings username password now) db)) /\
  (forall tok t_dec t_chk,
     Forall user_inv (table_after (verify_email settings tok t_dec t_chk) db)) /\
  (forall email t_tok t_exp,
     Forall user_inv
       (table_after (resend_verification_email settings email t_tok t_exp) db)).
Proof.
  intros Hdb. repeat split; intros.
  - by apply register_inv.
  - by rewrite login_readonly.
  - by apply verify_email_inv.
  - by apply resend_inv.
Qed.

(** What [verify_email] answers to a token that parses as a
    verification token naming a row by key and by email; the stored
    token string is not part of it. *)
Lemma verify_email_outcome tok t_dec t_chk db u (p : claims) :
  store_ok db -> u ∈ db ->
  verify_verification_token settings tok t_dec = Return (Some p) ->
  p !! "user_id" = Some (VInt (User.id u)) ->
  p !! "sub" = Some (VStr (User.email u)) ->
  get_db (verify_email settings tok t_dec t_chk) db =
    if User.email_verified u
    then (Return {| message := "Email already verified"; success := true |}, db)
    else match User.verification_token_expires u with
         | Some _ => (Raise TypeError, db)
         | None =>
             (Return {| message := "Email verified successfully! You can now use all features.";
                        success := true |},
              rewrite_row (set_verification u true None None) db)
         end.
Proof.
  intros Hok Hin Htok Hid Hsub.
  assert (Hrow : get_user_by_id (p !! "user_id") db = Return (Some u, db))
    by (rewrite Hid; by apply get_user_by_id_found).
  unfold get_db. rewrite (verify_email_user _ _ _ _ _ _ u Htok Hrow).
  rewrite Hsub, bool_decide_eq_false_2 by (intros Hne; by apply Hne).
  destruct (User.email_verified u); [reflexivity|].
  by destruct (User.verification_token_expires u).
Qed.


(** C3, the code at the claim.  For a user of the table and a token
    that parses as a verification token naming that user by key and by
    email: when the user is unverified and the row has a stored expiry,
    as every row written by register or resend has, consuming the token
    raises [TypeError] at the comparison of the stored expiry with the
    clock, and the table is left as it was, the user unverified; when
    the user is unverified and the row has no stored expiry, consuming
    it answers success and rewrites the row with [email_verified] true
    and both token columns NULL; when the user is already verified,
    consuming it answers success and the table is left as it was. *)
Theorem consume_stops_at_stored_expiry tok t_dec t_chk db u (p : claims) :
  store_ok db -> u ∈ db ->
  verify_verification_token settings tok t_dec = Return (Some p) ->
  p !! "user_id" = Some (VInt (User.id u)) ->
  p !! "sub" = Some (VStr (User.email u)) ->
  (User.email_verified u = false ->
   forall e, User.verification_token_expires u = Some e ->
   get_db (verify_email settings tok t_dec t_chk) db = (Raise TypeError, db)) /\
  (User.email_verified u = false ->
   User.verification_token_expires u = None ->
   let u' := set_verification u true None None in
   get_db (verify_email settings tok t_dec t_chk) db =
     (Return {| message := "Email verified successfully! You can now use all features.";
                success := true |},
      rewrite_row u' db) /\
   u' ∈ rewrite_row u' db /\
   User.email_verified u' = true /\
   User.verification_token u' = None /\
   User.verification_token_expires u' = None) /\
  (User.email_verified u = true ->
   get_db (verify_email settings tok t_dec t_chk) db =
     (Return {| message := "Email already verified"; success := true |}, db)).
Proof.
  intros Hok Hin Htok Hid Hsub.
  rewrite (verify_email_outcome tok t_dec t_chk db u p Hok Hin Htok Hid Hsub).
  split; [|split].
  - intros -> e ->. reflexivity.
  - intros -> -> u'. split; [reflexivity|].
    repeat split. by apply (rewrite_row_elem u).
  - intros ->. reflexivity.
Qed.


(** C2, as amended.  The gate has no kind check: a validly signed,
    unexpired token tagged [email_verification], whose [sub] is an email
    address, is answered 401 when no row has that string as its
    username, and is resolved to the row that has it when there is one.
    In the other direction the kind check is there: a validly signed
    token whose [type] is not exactly [email_verification] does not
    parse as a verification token. *)
Theorem token_kinds_at_gate_and_parser :
  (forall tok now db (p : claims) e,
     decode_access_token settings tok now = Return (Some p) ->
     p !! "type" = Some (VStr "email_verification") ->
     p !! "sub" = Some (VStr e) ->
     ((forall r, r ∈ db -> User.username r <> e) ->
      get_db (get_current_user settings tok now) db =
        (Raise credentials_exception, db)) /\
     (forall u uid,
        store_ok db -> u ∈ db -> User.username u = e ->
        p !! "user_id" = Some uid ->
        get_db (get_current_user settings tok now) db = (Return u, db))) /\
  (forall tok now (p : claims),
     decode_access_token settings tok now = Return (Some p) ->
     p !! "type" <> Some (VStr "email_verification") ->
     verify_verification_token settings tok now = Return None).
Proof.
  split.
  - intros tok now db p e Hdec _ Hsub. unfold get_db.
    rewrite (get_current_user_payload _ _ _ _ _ Hdec), Hsub. split.
    + intros Habs. destruct (p !! "user_id"); [|reflexivity].
      by rewrite get_user_by_username_absent.
    + intros u uid Hok Hin <- ->. by rewrite get_user_by_username_found.
  - intros tok now p Hdec Htype. apply decode_access_token_Some in Hdec.
    unfold verify_verification_token. rewrite Hdec.
    by rewrite bool_decide_eq_false_2.
Qed.

(** C8, as amended.  On a stored string that is not a well-formed hash
    the hasher's error reaches the caller of [verify_password], and from
    there the caller of login; [verify_password] returns, with the
    outcome of the comparison, only on a well-formed hash (and a secret
    the hasher takes), so it returns [false] only on a well-formed hash
    of another password. *)
Theorem verify_password_malformed_raises :
  (forall p s, verify_password p (Malformed s) = Raise UnknownHashError) /\
  (forall p salt pw,
     verify_password p (Argon2 salt pw) =
       if bool_decide (MAX_PASSWORD_SIZE < len p)
       then Raise PasswordSizeError
       else Return (bool_decide (p = pw))) /\
  (forall db u s password now,
     store_ok db -> u ∈ db -> User.hashed_password u = Malformed s ->
     get_db (login settings (User.username u) password now) db =
       (Raise UnknownHashError, db)).
Proof.
  split; [reflexivity|]. split; [apply verify_password_spec|].
  intros db u s password now Hok Hin Hh.
  unfold get_db, login, authenticate_user. rewrite !bind_unfold.
  rewrite get_user_by_username_found by done.
  rewrite bind_unfold. unfold call. rewrite Hh. reflexivity.
Qed.

(** Login with the username of a row whose hash is a hash, up to the
    signing of the token. *)
Lemma authenticate_user_hashed db u salt pw password :
  store_ok db -> u ∈ db -> User.hashed_password u = Argon2 salt pw ->
  authenticate_user (User.username u) password db =
    if bool_decide (MAX_PASSWORD_SIZE < len password)
    then Raise PasswordSizeError
    else Return (if bool_decide (password = pw) then Some u else None, db).
Proof.
  intros Hok Hin Hh. unfold authenticate_user. rewrite bind_unfold.
  rewrite get_user_by_username_found by done.
  rewrite bind_unfold. unfold call. rewrite Hh, verify_password_spec.
  destruct (bool_decide (MAX_PASSWORD_SIZE < len password)); [reflexivity|].
  by case_bool_decide.
Qed.

(** C9, as amended.  A login with a username that no row has and a
    login with the username of a row but another password than the one
    its hash was computed from, of at most [MAX_PASSWORD_SIZE]
    characters, get the same answer, 401 with the same detail, and no
    login, whatever its arguments, changes the table. *)
Theorem login_no_enumeration db u salt pw name password name' password' now now' :
  (forall r, r ∈ db -> User.username r <> name) ->
  store_ok db -> u ∈ db -> User.username u = name' ->
  User.hashed_password u = Argon2 salt pw ->
  password' <> pw -> len password' <= MAX_PASSWORD_SIZE ->
  get_db (login settings name password now) db =
    (Raise (HTTPException 401 "Incorrect username or password"
       [("WWW-Authenticate", "Bearer")]), db) /\
  get_db (login settings name' password' now') db =
    get_db (login settings name password now) db /\
  (forall n pw t, table_after (login settings n pw t) db = db).
Proof.
  intros Habs Hok Hin <- Hh Hne Hlen.
  assert (H1 : get_db (login settings name password now) db =
               (Raise (HTTPException 401 "Incorrect username or password"
       [("WWW-Authenticate", "Bearer")]), db)).
  { unfold get_db, login, authenticate_user. rewrite !bind_unfold.
    by rewrite get_user_by_username_absent. }
  split; [exact H1|split].
  - rewrite H1. unfold get_db, login. rewrite bind_unfold.
    rewrite (authenticate_user_hashed db u salt pw password' Hok Hin Hh).
    rewrite bool_decide_eq_false_2 by lia.
    by rewrite bool_decide_eq_false_2.
  - intros n pw0 t. apply login_readonly.
Qed.


End Handlers.

(** ** The scenario of the specification, evaluated *)

Lemma db_registered_eq : db_registered = [alice_row].
Proof. vm_compute. reflexivity. Qed.


Lemma db_verified_eq : db_verified = [alice_verified].
Proof. vm_compute. reflexivity. Qed.

Lemma db_bob_eq : db_bob = [bob_row].
Proof. vm_compute. reflexivity. Qed.

Lemma store_ok_singleton (u : User.t) : store_ok [u].
Proof. repeat split; apply NoDup_singleton. Qed.

Lemma elem_of_singleton_row (u : User.t) : u ∈ [u].
Proof. by apply list_elem_of_singleton. Qed.


Lemma representable_sample (t d : Z) :
  bool_decide (representable (t + d)) = true -> representable (t + d).
Proof. apply bool_decide_eq_true_1. Qed.


(** C2, counterexample.  bob's username is spelled like his email; the
    verification token mailed to him, which parses as a verification
    token, is accepted by the gate as a bearer credential for him. *)
Lemma verification_token_passes_gate :
  verify_verification_token default_settings T_bob 2000000 =
    Return (Some (verification_claims default_settings 1 "bob@x.com" 1000000)) /\
  get_db (get_current_user default_settings T_bob 2000000) db_bob =
    (Return bob_row, db_bob).
Proof. split; vm_compute; reflexivity. Qed.

(** C5, counterexample.  Claims with an integer subject are signed, with
    a ttl of one minute, into a token that the parser refuses at the very
    instant of signing; and with a ttl of ten thousand years nothing is
    signed at all. *)
Lemma roundtrip_fails_on_integer_subject :
  0 < seconds 60 /\
  (exists tok,
     create_access_token default_settings {[ "sub" := VInt 42 ]}
       (Some (seconds 60)) 1000000 = Return tok /\
     decode_access_token default_settings tok 1000000 = Return None) /\
  0 < hours 87660000 /\
  create_access_token default_settings (access_claims "alice" 1)
    (Some (hours 87660000)) 1000000 = Raise OverflowError.
Proof.
  split; [reflexivity|]. split.
  - eexists. split; vm_compute; reflexivity.
  - split; [reflexivity|]. vm_compute. reflexivity.
Qed.

(** C8, counterexample.  On a stored string that is no hash at all the
    call does not return [false]: it raises. *)
Lemma verify_password_malformed_does_not_return :
  verify_password "password123" (Malformed "password123") = Raise UnknownHashError /\
  verify_password "password123" (Malformed "password123") <> Return false.
Proof. split; [reflexivity|discriminate]. Qed.

Lemma long_password_len : len long_password = 4097.
Proof. vm_compute. reflexivity. Qed.

Lemma long_password_wrong : long_password <> "password123".
Proof.
  intros H. apply (f_equal len) in H. rewrite long_password_len in H.
  vm_compute in H. discriminate.
Qed.

(** C9, counterexample.  The same wrong password of 4097 characters is
    answered 401 for a username that no row has, and with the hasher's
    [PasswordSizeError] for alice's: the two outcomes tell whether the
    username exists. *)
Lemma login_tells_oversize_password :
  (forall r, r ∈ db_registered -> User.username r <> "mallory") /\
  alice_row ∈ db_registered /\ User.username alice_row = "alice" /\
  long_password <> "password123" /\
  get_db (login default_settings "mallory" long_password 3000000) db_registered =
    (Raise (HTTPException 401 "Incorrect username or password"
       [("WWW-Authenticate", "Bearer")]), db_registered) /\
  get_db (login default_settings "alice" long_password 3000000) db_registered =
    (Raise PasswordSizeError, db_registered) /\
  get_db (login default_settings "alice" long_password 3000000) db_registered <>
    get_db (login default_settings "mallory" long_password 3000000) db_registered.
Proof.
  assert (H1 : get_db (login default_settings "mallory" long_password 3000000)
                 db_registered =
               (Raise (HTTPException 401 "Incorrect username or password"
                  [("WWW-Authenticate", "Bearer")]), db_registered))
    by (vm_compute; reflexivity).
  assert (H2 : get_db (login default_settings "alice" long_password 3000000)
                 db_registered = (Raise PasswordSizeError, db_registered))
    by (vm_compute; reflexivity).
  split.
  { rewrite db_registered_eq. intros r ->%list_elem_of_singleton. discriminate. }
  split; [rewrite db_registered_eq; apply elem_of_singleton_row|].
  split; [reflexivity|]. split; [exact long_password_wrong|].
  split; [exact H1|]. split; [exact H2|].
  rewrite H1, H2. discriminate.
Qed.


(** ** The theorems at the sample data *)


Lemma token_kinds_at_gate_and_parser_witness :
  get_db (get_current_user default_settings T_bob 2000000) db_registered =
    (Raise credentials_exception, db_registered) /\
  get_db (get_current_user default_settings T_bob 2000000) db_bob =
    (Return bob_row, db_bob) /\
  verify_verification_token default_settings A_alice 2000000 = Return None.
Proof.
  destruct (token_kinds_at_gate_and_parser default_settings) as [Hgate Hparse].
  assert (Hdec : decode_access_token default_settings T_bob 2000000 =
                 Return (Some (verification_claims default_settings 1 "bob@x.com" 1000000)))
    by (vm_compute; reflexivity).
  split; [|split].
  - apply (Hgate T_bob 2000000 db_registered _ "bob@x.com" Hdec);
      [reflexivity|reflexivity|].
    rewrite db_registered_eq. intros r ->%list_elem_of_singleton. discriminate.
  - apply (Hgate T_bob 2000000 db_bob _ "bob@x.com" Hdec)
      with (uid := VInt 1); try reflexivity.
    + rewrite db_bob_eq. apply store_ok_singleton.
    + rewrite db_bob_eq. apply elem_of_singleton_row.
  - apply (Hparse A_alice 2000000
             (<["exp" := VInt 1801]> (access_claims "alice" 1)));
      [vm_compute; reflexivity|]. vm_compute. discriminate.
Defined.

(** The first request is alice's, who has registered and follows the
    link of her registration one second later; the second is for a row
    without stored expiry, the third for a verified row. *)
Lemma consume_stops_at_stored_expiry_witness :
  store_ok db_registered /\ alice_row ∈ db_registered /\
  verify_verification_token default_settings T1 2000000 =
    Return (Some (verification_claims default_settings 1 "alice@x.com" 1000000)) /\
  User.email_verified alice_row = false /\
  User.verification_token alice_row = Some T1 /\
  User.verification_token_expires alice_row = Some 86401000000 /\
  get_db (verify_email default_settings T1 2000000 2000000) db_registered =
    (Raise TypeError, db_registered) /\
  get_db (verify_email default_settings T_erin 2000000 2000000) [erin_row] =
    (Return {| message := "Email verified successfully! You can now use all features.";
               success := true |},
     [set_verification erin_row true None None]) /\
  get_db (verify_email default_settings T1 2000000 2000000) db_verified =
    (Return {| message := "Email already verified"; success := true |}, db_verified).
Proof.
  assert (H1 : store_ok db_registered)
    by (rewrite db_registered_eq; apply store_ok_singleton).
  assert (H2 : alice_row ∈ db_registered)
    by (rewrite db_registered_eq; apply elem_of_singleton_row).
  assert (H3 : verify_verification_token default_settings T1 2000000 =
               Return (Some (verification_claims default_settings 1 "alice@x.com" 1000000)))
    by (vm_compute; reflexivity).
  split; [exact H1|]. split; [exact H2|]. split; [exact H3|].
  split; [reflexivity|]. split; [reflexivity|]. split; [reflexivity|].
  split; [|split].
  - destruct (consume_stops_at_stored_expiry default_settings T1 2000000 2000000
                db_registered alice_row _ H1 H2 H3 eq_refl eq_refl) as [H _].
    apply (H eq_refl 86401000000 eq_refl).
  - assert (H3' : verify_verification_token default_settings T_erin 2000000 =
                  Return (Some (verification_claims default_settings 3 "erin@x.com" 1000000)))
      by (vm_compute; reflexivity).
    destruct (consume_stops_at_stored_expiry default_settings T_erin 2000000 2000000
                [erin_row] erin_row _ (store_ok_singleton _) (elem_of_singleton_row _)
                H3' eq_refl eq_refl) as (_ & H & _).
    destruct (H eq_refl eq_refl) as [H' _].
    vm_compute in H' |- *. exact H'.
  - assert (H1' : store_ok db_verified)
      by (rewrite db_verified_eq; apply store_ok_singleton).
    assert (H2' : alice_verified ∈ db_verified)
      by (rewrite db_verified_eq; apply elem_of_singleton_row).
    destruct (consume_stops_at_stored_expiry default_settings T1 2000000 2000000
                db_verified alice_verified _ H1' H2' H3 eq_refl eq_refl) as (_ & _ & H).
    apply H. reflexivity.
Defined.

Lemma user_inv_alice_row : user_inv alice_row.
Proof. split; simpl; [split; intros _; eauto|discriminate]. Qed.

Lemma operations_preserve_user_invariant_witness :
  Forall user_inv db_registered /\
  Forall user_inv
    (table_after (register default_settings bob "salt" 3000000 3000000 3000000)
       db_registered) /\
  Forall user_inv
    (table_after (login default_settings "alice" "password123" 3000000) db_registered) /\
  Forall user_inv
    (table_after (verify_email default_settings T1 3000000 3000000) db_registered) /\
  Forall user_inv
    (table_after (resend_verification_email default_settings "alice@x.com" 3000000 3000000)
       db_registered).
Proof.
  assert (H : Forall user_inv db_registered)
    by (rewrite db_registered_eq; apply Forall_singleton, user_inv_alice_row).
  split; [exact H|].
  destruct (operations_preserve_user_invariant default_settings db_registered H)
    as (Hr & Hl & Hv & Hs).
  repeat split; [apply Hr|apply Hl|apply Hv|apply Hs].
Defined.

Lemma access_claims_ok username user_id now_s :
  registered_claims_ok (access_claims username user_id) now_s.
Proof.
  unfold access_claims. repeat split; try reflexivity; intros v Hv.
  - rewrite lookup_insert_eq in Hv. injection Hv as <-. eauto.
  - rewrite lookup_insert_ne, lookup_singleton_ne in Hv by done. discriminate.
  - rewrite lookup_insert_ne, lookup_singleton_ne in Hv by done. discriminate.
  - rewrite lookup_insert_ne, lookup_singleton_ne in Hv by done. discriminate.
Qed.

Lemma sign_parse_roundtrip_witness :
  0 < minutes 30 /\
  registered_claims_ok (access_claims "alice" 1) (timegm 1000000) /\
  representable (1000000 + minutes 30) /\
  (exists tok,
     create_access_token default_settings (access_claims "alice" 1)
       (Some (minutes 30)) 1000000 = Return tok /\
     decode_access_token default_settings tok 1000000 =
       Return (Some (<["exp" := VInt (timegm (1000000 + minutes 30))]>
                       (access_claims "alice" 1)))) /\
  0 < hours 87660000 /\
  ~ representable (1000000 + hours 87660000) /\
  create_access_token default_settings (access_claims "alice" 1)
    (Some (hours 87660000)) 1000000 = Raise OverflowError.
Proof.
  assert (Hr : representable (1000000 + minutes 30))
    by (apply representable_sample; vm_compute; reflexivity).
  assert (Hn : ~ representable (1000000 + hours 87660000)).
  { intros H. apply (bool_decide_eq_true_2 _) in H. vm_compute in H. discriminate. }
  split; [reflexivity|]. split; [apply access_claims_ok|]. split; [exact Hr|].
  split.
  - apply (sign_parse_roundtrip default_settings (access_claims "alice" 1)
             (minutes 30) 1000000); [reflexivity|apply access_claims_ok|exact Hr].
  - split; [reflexivity|]. split; [exact Hn|].
    apply (sign_parse_roundtrip default_settings (access_claims "alice" 1)
             (hours 87660000) 1000000); [reflexivity|apply access_claims_ok|exact Hn].
Defined.

Lemma parse_rejects_bad_tokens_witness :
  "another-secret" <> SECRET_KEY default_settings /\
  decode_access_token default_settings
    (JWS ALGORITHM (access_claims "alice" 1) "another-secret") 1000000 = Return None /\
  1000000 <= 1000000 /\
  create_access_token default_settings (access_claims "alice" 1)
    (Some (seconds (-1))) 1000000 = Return A_stale /\
  decode_access_token default_settings A_stale 1000000 = Return None /\
  get_db (get_current_user default_settings A_stale 1000000) db_registered =
    (Raise credentials_exception, db_registered).
Proof.
  destruct (parse_rejects_bad_tokens default_settings) as [Hkey Hexp].
  assert (Hne : "another-secret" <> SECRET_KEY default_settings) by discriminate.
  assert (Hle : 1000000 <= 1000000) by reflexivity.
  assert (Htok : create_access_token default_settings (access_claims "alice" 1)
                   (Some (seconds (-1))) 1000000 = Return A_stale)
    by (vm_compute; reflexivity).
  split; [exact Hne|].
  split; [apply (Hkey ALGORITHM _ "another-secret" 1000000 db_registered Hne)|].
  split; [exact Hle|]. split; [exact Htok|].
  apply (Hexp (access_claims "alice" 1) 1000000 1000000 db_registered A_stale Hle Htok).
Defined.

Lemma gate_requires_sub_and_user_id_witness :
  get_db (get_current_user default_settings A_nosub 2000000) db_registered =
    (Raise credentials_exception, db_registered) /\
  get_db (get_current_user default_settings A_carol 2000000) db_registered =
    (Raise credentials_exception, db_registered) /\
  get_db (get_current_user default_settings A_alice_99 2000000) db_registered =
    (Return alice_row, db_registered).
Proof.
  split; [|split].
  - assert (Hdec : decode_access_token default_settings A_nosub 2000000 =
                   Return (Some (<["exp" := VInt 1801]> {[ "user_id" := VInt 1 ]})))
      by (vm_compute; reflexivity).
    apply (gate_requires_sub_and_user_id default_settings _ _ db_registered _ Hdec).
    left. reflexivity.
  - assert (Hdec : decode_access_token default_settings A_carol 2000000 =
                   Return (Some (<["exp" := VInt 1801]> (access_claims "carol" 1))))
      by (vm_compute; reflexivity).
    apply (gate_requires_sub_and_user_id default_settings _ _ db_registered _ Hdec)
      with (name := "carol"); [reflexivity|].
    rewrite db_registered_eq. intros r ->%list_elem_of_singleton. discriminate.
  - assert (Hdec : decode_access_token default_settings A_alice_99 2000000 =
                   Return (Some (<["exp" := VInt 1801]> (access_claims "alice" 99))))
      by (vm_compute; reflexivity).
    apply (gate_requires_sub_and_user_id default_settings _ _ db_registered _ Hdec)
      with (uid := VInt 99); try reflexivity.
    + rewrite db_registered_eq. apply store_ok_singleton.
    + rewrite db_registered_eq. apply elem_of_singleton_row.
Defined.

Lemma login_no_enumeration_witness :
  (forall r, r ∈ db_registered -> User.username r <> "mallory") /\
  store_ok db_registered /\ alice_row ∈ db_registered /\
  User.hashed_password alice_row = Argon2 "salt" "password123" /\
  "letmein" <> "password123" /\ len "letmein" <= MAX_PASSWORD_SIZE /\
  get_db (login default_settings "mallory" "letmein" 3000000) db_registered =
    (Raise (HTTPException 401 "Incorrect username or password"
       [("WWW-Authenticate", "Bearer")]), db_registered) /\
  get_db (login default_settings "alice" "letmein" 4000000) db_registered =
    get_db (login default_settings "mallory" "letmein" 3000000) db_registered.
Proof.
  assert (H0 : forall r, r ∈ db_registered -> User.username r <> "mallory").
  { rewrite db_registered_eq. intros r ->%list_elem_of_singleton. discriminate. }
  assert (H1 : store_ok db_registered)
    by (rewrite db_registered_eq; apply store_ok_singleton).
  assert (H2 : alice_row ∈ db_registered)
    by (rewrite db_registered_eq; apply elem_of_singleton_row).
  assert (H3 : User.hashed_password alice_row = Argon2 "salt" "password123")
    by reflexivity.
  assert (H4 : "letmein" <> "password123") by discriminate.
  assert (H5 : len "letmein" <= MAX_PASSWORD_SIZE) by (vm_compute; discriminate).
  repeat (split; [assumption|]).
  destruct (login_no_enumeration default_settings db_registered alice_row
              "salt" "password123" "mallory" "letmein" "alice" "letmein"
              3000000 4000000 H0 H1 H2 eq_refl H3 H4 H5) as (Ha & Hb & _).
  split; [exact Ha|exact Hb].
Defined.


Lemma verify_password_malformed_raises_witness :
  store_ok [carol_row] /\ carol_row ∈ [carol_row] /\
  User.hashed_password carol_row = Malformed "password123" /\
  get_db (login default_settings "carol" "password123" 3000000) [carol_row] =
    (Raise UnknownHashError, [carol_row]).
Proof.
  split; [apply store_ok_singleton|]. split; [apply elem_of_singleton_row|].
  split; [reflexivity|].
  destruct (verify_password_malformed_raises default_settings) as (_ & _ & H).
  apply (H [carol_row] carol_row "password123" "password123" 3000000);
    [apply store_ok_singleton|apply elem_of_singleton_row|reflexivity].
Defined.

(** * Further properties *)

(** ** The codec: lifetimes *)

Section Lifetimes.
Variable settings : Settings.

(** The parser on a freshly built token: the claims when the registered
    claims are fine and the expiry second has not passed, nothing
    otherwise. *)
Lemma decode_signed_claims (c : claims) (e now_s : Z) (now' : datetime) :
  now_s = timegm now' ->
  registered_claims_ok c now_s ->
  decode_access_token settings
    (jwt_encode (<["exp" := VInt e]> c) (SECRET_KEY settings)) now'
  = Return (if bool_decide (now_s <= e) then Some (<["exp" := VInt e]> c) else None).
Proof.
  intros -> Hc. rewrite decode_access_token_spec, jwt_decode_encode.
  case_bool_decide as He.
  - by rewrite validate_claims_ok.
  - rewrite (validate_claims_exp_false _ _ e); [done| |lia].
    apply lookup_insert_eq.
Qed.

(** X1.  With a non-zero ttl: when the clock plus the ttl is a
    datetime, signing returns a token that parses, to the claims with the
    expiry, at every instant whose second is not after the second of the
    expiry, and to nothing from the next second on; when the sum leaves
    the range of [datetime], signing raises [OverflowError]. *)
Theorem access_token_lifetime (c : claims) (ttl : timedelta) (now now' : datetime) :
  ttl <> 0 ->
  registered_claims_ok c (timegm now') ->
  (representable (now + ttl) ->
   exists tok,
     create_access_token settings c (Some ttl) now = Return tok /\
     decode_access_token settings tok now'
     = Return (if bool_decide (timegm now' <= timegm (now + ttl))
               then Some (<["exp" := VInt (timegm (now + ttl))]> c)
               else None)) /\
  (~ representable (now + ttl) ->
   create_access_token settings c (Some ttl) now = Raise OverflowError).
Proof.
  intros Httl Hc. rewrite create_access_token_ttl by done. split; intros Hr.
  - rewrite bool_decide_eq_true_2 by done. eexists. split; [reflexivity|].
    by apply decode_signed_claims.
  - by rewrite bool_decide_eq_false_2.
Qed.

(** X2.  A ttl of zero is falsy, like no ttl at all: both sign what a
    ttl of thirty minutes signs, so a token asked for with a zero ttl
    still parses thirty minutes later. *)
Theorem zero_ttl_is_thirty_minutes (c : claims) (now now' : datetime) :
  registered_claims_ok c (timegm now') ->
  timegm now' <= timegm (now + minutes 30) ->
  representable (now + minutes 30) ->
  create_access_token settings c (Some 0) now =
    create_access_token settings c (Some (minutes 30)) now /\
  create_access_token settings c None now =
    create_access_token settings c (Some (minutes 30)) now /\
  exists tok,
    create_access_token settings c (Some 0) now = Return tok /\
    decode_access_token settings tok now'
    = Return (Some (<["exp" := VInt (timegm (now + minutes 30))]> c)).
Proof.
  intros Hc Hle Hr.
  split; [apply create_access_token_default; by right|].
  split; [apply create_access_token_default; by left|].
  rewrite create_access_token_default by (by right).
  rewrite create_access_token_ttl by done.
  rewrite bool_decide_eq_true_2 by done. eexists. split; [reflexivity|].
  rewrite (decode_signed_claims c _ (timegm now') now' eq_refl Hc).
  by rewrite bool_decide_eq_true_2.
Qed.


End Lifetimes.

(** ** The gate and login *)

Section GateAndLogin.
Variable settings : Settings.

Lemma get_user_by_username_elem v db u db' :
  get_user_by_username v db = Return (Some u, db') ->
  u ∈ db /\ v = VStr (User.username u).
Proof. apply (scalar_one_or_none_filter (fun r => v = VStr (User.username r))). Qed.

Lemma validate_claims_exp c now_s e :
  validate_claims c now_s = true -> c !! "exp" = Some (VInt e) -> now_s <= e.
Proof.
  unfold validate_claims. rewrite !andb_true_iff.
  intros [[[[[_ Hexp] _] _] _] _] He. unfold validate_exp in Hexp.
  rewrite He in Hexp. simpl in Hexp. apply negb_true_iff, Z.ltb_ge in Hexp. lia.
Qed.

(** X4.  Whatever the gate returns is a row of the table, named by the
    subject of a token that was signed with the configured secret, that
    carries a user id and whose expiry second has not passed; and the
    gate leaves the table as it was. *)
Theorem gate_returns_named_row tok now db u db' :
  get_current_user settings tok now db = Return (u, db') ->
  db' = db /\ u ∈ db /\
  exists p : claims,
    tok = JWS ALGORITHM p (SECRET_KEY settings) /\
    p !! "sub" = Some (VStr (User.username u)) /\
    is_Some (p !! "user_id") /\
    (forall e, p !! "exp" = Some (VInt e) -> timegm now <= e).
Proof.
  unfold get_current_user. rewrite bind_unfold. unfold call.
  rewrite decode_access_token_spec.
  destruct (jwt_decode tok (SECRET_KEY settings) now) as [p|e] eqn:Hdec;
    [|discriminate].
  apply jwt_decode_returns in Hdec as [-> Hval].
  destruct (p !! "sub") as [name|] eqn:Hsub; [|discriminate].
  destruct (p !! "user_id") as [uid|] eqn:Hid; [|discriminate].
  rewrite bind_unfold.
  destruct (get_user_by_username name db) as [[[r|] db1]|e] eqn:Hrow;
    try discriminate.
  intros [= -> ->].
  pose proof (get_user_by_username_db _ _ _ _ Hrow) as ->.
  apply get_user_by_username_elem in Hrow as [Hin ->].
  split; [reflexivity|]. split; [exact Hin|].
  exists p. repeat split; eauto.
  intros e He. by apply (validate_claims_exp p).
Qed.

(** The token [login] signs for a row. *)
Lemma create_login_token u now :
  create_access_token settings
    {[ "sub" := VStr (User.username u); "user_id" := VInt (User.id u) ]}
    (Some (minutes ACCESS_TOKEN_EXPIRE_MINUTES)) now =
    if bool_decide (representable (now + minutes 30))
    then Return (login_token settings u now)
    else Raise OverflowError.
Proof. by rewrite create_access_token_ttl. Qed.

(** What [login] does for a row whose hash is a hash, with the password
    of the hash. *)
Lemma login_row db u salt pw now :
  store_ok db -> u ∈ db -> User.hashed_password u = Argon2 salt pw ->
  len pw <= MAX_PASSWORD_SIZE -> representable (now + minutes 30) ->
  login settings (User.username u) pw now db =
    Return ({| access_token := login_token settings u now; token_type := "bearer" |},
            db).
Proof.
  intros Hok Hin Hh Hlen Hr. unfold login. rewrite bind_unfold.
  rewrite (authenticate_user_hashed db u salt pw pw Hok Hin Hh).
  rewrite bool_decide_eq_false_2 by lia.
  rewrite bool_decide_eq_true_2 by done.
  rewrite bind_unfold. unfold call. rewrite create_login_token.
  by rewrite bool_decide_eq_true_2.
Qed.

Lemma login_json_is_login username password now :
  login_json settings username password now = login settings username password now.
Proof. reflexivity. Qed.

(** The gate on a token that login issued for a row of the table. *)
Lemma gate_on_login_token db u now now' :
  store_ok db -> u ∈ db ->
  get_current_user settings (login_token settings u now) now' db =
    if bool_decide (timegm now' <= timegm (now + minutes 30))
    then Return (u, db) else Raise credentials_exception.
Proof.
  intros Hok Hin.
  assert (Hdec : decode_access_token settings (login_token settings u now) now' =
                 Return (if bool_decide (timegm now' <= timegm (now + minutes 30))
                         then Some (<["exp" := VInt (timegm (now + minutes 30))]>
                                      (access_claims (User.username u) (User.id u)))
                         else None)).
  { unfold login_token.
    apply decode_signed_claims; [reflexivity|apply access_claims_ok]. }
  case_bool_decide as He.
  - rewrite (get_current_user_payload _ _ _ _ _ Hdec).
    unfold access_claims. rewrite lookup_insert_ne by done.
    rewrite lookup_insert_eq.
    rewrite lookup_insert_ne, lookup_insert_ne, lookup_singleton_eq by done.
    by rewrite get_user_by_username_found.
  - pose proof (get_current_user_invalid settings _ _ db Hdec) as H.
    unfold get_db in H.
    destruct (get_current_user settings (login_token settings u now) now' db)
      as [[? ?]|e]; [discriminate|]. by injection H as ->.
Qed.

(** X5.  A login with the username of a row and the password its hash
    was computed from, a password the hasher takes, whether or not the
    email is verified, returns a bearer token and leaves the table
    alone, and so does the JSON login, as long as the clock is thirty
    minutes from the end of [datetime].  For thirty minutes, to the
    second, the gate resolves that token to the row, [/auth/me] returns
    the row and [/auth/verify] describes it; afterwards all three answer
    401. *)
Theorem login_issues_working_token db u salt pw now now' :
  store_ok db -> u ∈ db -> User.hashed_password u = Argon2 salt pw ->
  len pw <= MAX_PASSWORD_SIZE -> representable (now + minutes 30) ->
  let tok := login_token settings u now in
  let alive := bool_decide (timegm now' <= timegm (now + minutes 30)) in
  get_db (login settings (User.username u) pw now) db =
    (Return {| access_token := tok; token_type := "bearer" |}, db) /\
  get_db (login_json settings (User.username u) pw now) db =
    (Return {| access_token := tok; token_type := "bearer" |}, db) /\
  get_db (get_current_user settings tok now') db =
    (if alive then Return u else Raise credentials_exception, db) /\
  get_db (get_current_user_info settings tok now') db =
    (if alive then Return u else Raise credentials_exception, db) /\
  get_db (verify_token settings tok now') db =
    (if alive
     then Return {| VerifyResponse.valid := true;
                    VerifyResponse.user_id := User.id u;
                    VerifyResponse.username := User.username u;
                    VerifyResponse.email_verified := User.email_verified u |}
     else Raise credentials_exception, db).
Proof.
  intros Hok Hin Hh Hlen Hr tok alive.
  pose proof (gate_on_login_token db u now now' Hok Hin) as Hgate.
  fold tok alive in Hgate.
  split; [|split; [|split; [|split]]].
  - unfold get_db. by rewrite (login_row db u salt pw now Hok Hin Hh Hlen Hr).
  - unfold get_db. rewrite login_json_is_login.
    by rewrite (login_row db u salt pw now Hok Hin Hh Hlen Hr).
  - unfold get_db. rewrite Hgate. by destruct alive.
  - unfold get_db, get_current_user_info. rewrite bind_unfold, Hgate.
    by destruct alive.
  - unfold get_db, verify_token. rewrite bind_unfold, Hgate.
    by destruct alive.
Qed.

(** X6.  A login succeeds only with the password that the hash of the
    named row was computed from; what it returns is the token for that
    row, and the table is as it was. *)
Theorem login_success_requires_password username password now db r db' :
  login settings username password now db = Return (r, db') ->
  db' = db /\
  exists u salt,
    u ∈ db /\ User.username u = username /\
    User.hashed_password u = Argon2 salt password /\
    r = {| access_token := login_token settings u now; token_type := "bearer" |}.
Proof.
  unfold login, authenticate_user. rewrite !bind_unfold.
  destruct (get_user_by_username (VStr username) db) as [[[u|] db1]|e] eqn:Hrow;
    try discriminate.
  pose proof (get_user_by_username_db _ _ _ _ Hrow) as ->.
  apply get_user_by_username_elem in Hrow as [Hin [= ->]].
  rewrite bind_unfold. unfold call.
  destruct (User.hashed_password u) as [salt pw|s] eqn:Hh; [|discriminate].
  rewrite verify_password_spec.
  destruct (bool_decide (MAX_PASSWORD_SIZE < len password)); [discriminate|].
  case_bool_decide as Hpw; simpl; [|discriminate].
  rewrite bind_unfold. unfold call. rewrite create_login_token.
  case_bool_decide; [|discriminate].
  intros [= <- <-]. split; [reflexivity|].
  exists u, salt. subst pw. repeat split; done.
Qed.

End GateAndLogin.

(** ** Registration *)

Section Registration.
Variable settings : Settings.

Lemma rewrite_row_fresh u' db :
  (forall r, r ∈ db -> User.id r <> User.id u') -> rewrite_row u' db = db.
Proof.
  intros Hfresh. unfold rewrite_row.
  rewrite <- (list_fmap_id db) at 2.
  apply Forall_fmap_ext_1, Forall_forall. intros r Hr. simpl.
  rewrite bool_decide_eq_false_2; [reflexivity|by apply Hfresh].
Qed.

Lemma rewrite_row_snoc u' nu db :
  (forall r, r ∈ db -> User.id r <> User.id u') -> User.id nu = User.id u' ->
  rewrite_row u' (db ++ [nu]) = db ++ [u'].
Proof.
  intros Hfresh Hid. unfold rewrite_row. rewrite fmap_app.
  fold (rewrite_row u' db). rewrite rewrite_row_fresh by done.
  simpl. by rewrite bool_decide_eq_true_2.
Qed.

Lemma next_id_not_in db r : r ∈ db -> User.id r <> next_id db.
Proof. intros Hr. pose proof (next_id_fresh db r Hr). lia. Qed.

Lemma db_add_not_exists db email username :
  (forall r, r ∈ db -> User.username r <> username) ->
  (forall r, r ∈ db -> User.email r <> email) ->
  ~ Exists (fun r => User.email r = email \/ User.username r = username) db.
Proof.
  intros Hu He (r & Hr & [H|H])%Exists_exists; [by apply (He r)|by apply (Hu r)].
Qed.

(** Registration of a username and an email that no row has. *)
Lemma register_fresh user salt t_db t_tok t_exp db :
  (forall r, r ∈ db -> User.username r <> UserCreate.username user) ->
  (forall r, r ∈ db -> User.email r <> UserCreate.email user) ->
  register settings user salt t_db t_tok t_exp db =
    if bool_decide (MAX_PASSWORD_SIZE < len (UserCreate.password user))
    then Raise PasswordSizeError
    else Return (registered_row settings user salt t_db t_tok t_exp db,
                 db ++ [registered_row settings user salt t_db t_tok t_exp db]).
Proof.
  intros Hu He. unfold register. rewrite bind_unfold.
  rewrite get_user_by_username_absent by done.
  rewrite bool_decide_eq_false_2 by (intros [? [=]]).
  rewrite bind_unfold, get_user_by_email_absent by done.
  rewrite bool_decide_eq_false_2 by (intros [? [=]]).
  rewrite bind_unfold. unfold call. rewrite get_password_hash_spec.
  destruct (bool_decide (MAX_PASSWORD_SIZE < len (UserCreate.password user)));
    [reflexivity|].
  rewrite bind_unfold. unfold db_add.
  rewrite bool_decide_eq_false_2 by (by apply db_add_not_exists).
  rewrite bind_unfold. unfold db_flush. simpl.
  rewrite rewrite_row_snoc; [reflexivity| |reflexivity].
  intros r Hr. simpl. by apply next_id_not_in.
Qed.

(** Whatever a registration that returns has done. *)
Lemma register_returns user salt t_db t_tok t_exp db r db' :
  register settings user salt t_db t_tok t_exp db = Return (r, db') ->
  (forall x, x ∈ db -> User.username x <> UserCreate.username user) /\
  (forall x, x ∈ db -> User.email x <> UserCreate.email user) /\
  len (UserCreate.password user) <= MAX_PASSWORD_SIZE /\
  r = registered_row settings user salt t_db t_tok t_exp db /\
  db' = db ++ [r].
Proof.
  intros Hreg.
  assert (Hu : forall x, x ∈ db -> User.username x <> UserCreate.username user).
  { intros x Hx Heq. revert Hreg. unfold register. rewrite bind_unfold.
    destruct (get_user_by_username _ db) as [[[u|] db1]|e] eqn:E1; try discriminate.
    apply scalar_one_or_none_None in E1.
    exfalso. apply (filter_nil_not _ _ x E1 Hx). by rewrite Heq. }
  assert (He : forall x, x ∈ db -> User.email x <> UserCreate.email user).
  { intros x Hx Heq. revert Hreg. unfold register. rewrite bind_unfold.
    rewrite get_user_by_username_absent by done.
    rewrite bool_decide_eq_false_2 by (intros [? [=]]).
    rewrite bind_unfold.
    destruct (get_user_by_email _ db) as [[[u|] db1]|e] eqn:E2; try discriminate.
    apply scalar_one_or_none_None in E2.
    exfalso. apply (filter_nil_not _ _ x E2 Hx). by rewrite Heq. }
  rewrite (register_fresh user salt t_db t_tok t_exp db Hu He) in Hreg.
  case_bool_decide as Hlen; [discriminate|].
  injection Hreg as <- <-. repeat split; [done|done|lia].
Qed.




(** X8.  A registration with the username of a row is refused with 400
    "Username already registered", whatever the email; one with a new
    username and the email of a row is refused with 400 "Email already
    registered"; neither changes the table. *)
Theorem register_rejects_duplicates user salt t_db t_tok t_exp db u :
  store_ok db -> u ∈ db ->
  (User.username u = UserCreate.username user ->
   get_db (register settings user salt t_db t_tok t_exp) db =
     (Raise (HTTPException 400 "Username already registered" []), db)) /\
  ((forall r, r ∈ db -> User.username r <> UserCreate.username user) ->
   User.email u = UserCreate.email user ->
   get_db (register settings user salt t_db t_tok t_exp) db =
     (Raise (HTTPException 400 "Email already registered" []), db)).
Proof.
  intros Hok Hin. split.
  - intros Heq. unfold get_db, register. rewrite bind_unfold, <- Heq.
    rewrite get_user_by_username_found by done.
    by rewrite bool_decide_eq_true_2 by (eexists; reflexivity).
  - intros Hu Heq. unfold get_db, register. rewrite bind_unfold.
    rewrite get_user_by_username_absent by done.
    rewrite bool_decide_eq_false_2 by (intros [? [=]]).
    rewrite bind_unfold, <- Heq, get_user_by_email_found by done.
    by rewrite bool_decide_eq_true_2 by (eexists; reflexivity).
Qed.




End Registration.

(** ** The lifecycle: refusals, reissue, and what the handlers keep *)

Section LifecycleMore.
Variable settings : Settings.

Lemma get_user_by_id_absent db v :
  (forall r, r ∈ db -> v <> Some (VInt (User.id r))) ->
  get_user_by_id v db = Return (None, db).
Proof.
  intros Habs. unfold get_user_by_id.
  rewrite bind_unfold, select_where_unfold, filter_none; [reflexivity|].
  intros r Hr Heq. by apply (Habs r).
Qed.

(** The exceptions in which [verify_email] can end. *)
Lemma verify_email_raises tok t_dec t_chk db e :
  verify_email settings tok t_dec t_chk db = Raise e ->
  e = HTTPException 400 "Invalid or expired verification token" [] \/
  e = HTTPException 404 "User not found" [] \/
  e = HTTPException 400 "Invalid verification token" [] \/
  e = TypeError \/ e = MultipleResultsFound.
Proof.
  unfold verify_email. rewrite bind_unfold. unfold call.
  destruct (verify_verification_token_returns settings tok t_dec) as [r ->].
  destruct r as [p|]; [|intros [= <-]; eauto].
  case_bool_decide; [intros [= <-]; eauto|].
  rewrite bind_unfold.
  destruct (get_user_by_id (p !! "user_id") db) as [[[u|] db1]|e'] eqn:E.
  - case_bool_decide; [intros [= <-]; eauto|].
    destruct (User.email_verified u); [discriminate|].
    rewrite bind_unfold.
    destruct (User.verification_token_expires u) as [expires|];
      [intros [= <-]; eauto 6|discriminate].
  - intros [= <-]; eauto.
  - apply get_user_by_id_raises in E as ->. intros [= <-]; eauto 6.
Qed.

(** X11.  Verify-email refuses, and leaves the table as it was: with 400
    a token that does not parse as a verification token; with 404 one
    whose user id is missing or an integer that is the key of no row;
    with 400 one whose subject is not the email of the row.  For an unverified row with a stored
    expiry it ends, whatever the clock reads, in the [TypeError] of the
    comparison; and the refusal "Verification token has expired" of the
    handler is the answer to no request at all. *)
Theorem verify_email_refusals tok t_dec t_chk db :
  (verify_verification_token settings tok t_dec = Return None ->
   get_db (verify_email settings tok t_dec t_chk) db =
     (Raise (HTTPException 400 "Invalid or expired verification token" []), db)) /\
  (forall p : claims,
     verify_verification_token settings tok t_dec = Return (Some p) ->
     ((p !! "user_id" = None \/ exists n, p !! "user_id" = Some (VInt n)) ->
      (forall r, r ∈ db -> p !! "user_id" <> Some (VInt (User.id r))) ->
      get_db (verify_email settings tok t_dec t_chk) db =
        (Raise (HTTPException 404 "User not found" []), db)) /\
     (forall u,
        store_ok db -> u ∈ db -> p !! "user_id" = Some (VInt (User.id u)) ->
        (p !! "sub" <> Some (VStr (User.email u)) ->
         get_db (verify_email settings tok t_dec t_chk) db =
           (Raise (HTTPException 400 "Invalid verification token" []), db)) /\
        (forall e,
           p !! "sub" = Some (VStr (User.email u)) ->
           User.email_verified u = false ->
           User.verification_token_expires u = Some e ->
           get_db (verify_email settings tok t_dec t_chk) db =
             (Raise TypeError, db)))) /\
  fst (get_db (verify_email settings tok t_dec t_chk) db) <>
    Raise (HTTPException 400
             "Verification token has expired. Please request a new one." []).
Proof.
  split; [|split].
  - intros Htok. unfold get_db, verify_email. rewrite bind_unfold.
    unfold call. by rewrite Htok.
  - intros p Htok. split.
    + intros _ Habs. unfold get_db, verify_email. rewrite bind_unfold.
      unfold call. rewrite Htok.
      apply verify_verification_token_Some in Htok as [_ Htype].
      rewrite bool_decide_eq_false_2;
        [|intros ->; by rewrite lookup_empty in Htype].
      by rewrite bind_unfold, get_user_by_id_absent.
    + intros u Hok Hin Hid.
      assert (Hrow : get_user_by_id (p !! "user_id") db = Return (Some u, db))
        by (rewrite Hid; by apply get_user_by_id_found).
      unfold get_db. rewrite (verify_email_user _ _ _ _ _ _ u Htok Hrow). split.
      * intros Hsub. rewrite bool_decide_eq_true_2; [reflexivity|congruence].
      * intros e Hsub Hv He.
        rewrite Hsub, bool_decide_eq_false_2 by (intros Hne; by apply Hne).
        by rewrite Hv, He.
  - unfold get_db.
    destruct (verify_email settings tok t_dec t_chk db) as [[r db']|e] eqn:E;
      [discriminate|].
    simpl. intros [= ->].
    destruct (verify_email_raises _ _ _ _ _ E) as [H|[H|[H|[H|H]]]]; discriminate.
Qed.


(** The tables a request can leave. *)
Lemma verify_email_table tok t_dec t_chk db :
  table_after (verify_email settings tok t_dec t_chk) db = db \/
  exists u, u ∈ db /\ User.email_verified u = false /\
    User.verification_token_expires u = None /\
    table_after (verify_email settings tok t_dec t_chk) db =
      rewrite_row (set_verification u true None None) db.
Proof.
  unfold table_after, get_db, verify_email.
  rewrite bind_unfold. unfold call.
  destruct (verify_verification_token settings tok t_dec) as [[p|]|e];
    try (by left).
  case_bool_decide; [by left|]. rewrite bind_unfold.
  destruct (get_user_by_id (p !! "user_id") db) as [[[u|] db1]|e] eqn:E;
    try (by left).
  pose proof (get_user_by_id_db _ _ _ _ E) as ->.
  apply get_user_by_id_elem in E as [Hin _].
  case_bool_decide; [by left|].
  destruct (User.email_verified u) eqn:Hv; [by left|].
  rewrite bind_unfold.
  destruct (User.verification_token_expires u) as [expires|] eqn:He; [by left|].
  right; exists u; done.
Qed.

Lemma resend_table email t_tok t_exp db :
  table_after (resend_verification_email settings email t_tok t_exp) db = db \/
  exists u tok e, u ∈ db /\ User.email_verified u = false /\
    table_after (resend_verification_email settings email t_tok t_exp) db =
      rewrite_row (set_verification u false (Some tok) (Some e)) db.
Proof.
  unfold table_after, get_db, resend_verification_email. rewrite bind_unfold.
  destruct (get_user_by_email (VStr email) db) as [[r db1]|e] eqn:E; [|by left].
  pose proof (get_user_by_email_db _ _ _ _ E) as ->.
  destruct r as [u|]; [|by left].
  apply get_user_by_email_elem in E as [Hin _].
  destruct (User.email_verified u) eqn:Hv; simpl; [by left|].
  right. eauto 10.
Qed.

Lemma register_table user salt t_db t_tok t_exp db :
  table_after (register settings user salt t_db t_tok t_exp) db = db \/
  ((forall x, x ∈ db -> User.username x <> UserCreate.username user) /\
   (forall x, x ∈ db -> User.email x <> UserCreate.email user) /\
   table_after (register settings user salt t_db t_tok t_exp) db =
     db ++ [registered_row settings user salt t_db t_tok t_exp db]).
Proof.
  unfold table_after, get_db.
  destruct (register settings user salt t_db t_tok t_exp db) as [[r db']|e] eqn:E;
    [|by left].
  apply register_returns in E as (Hu & He & _ & -> & ->). right. done.
Qed.

Lemma row_step_refl r : row_step r r.
Proof. by repeat split. Qed.

Lemma rewrite_row_step u u' db :
  store_ok db -> u ∈ db -> row_step u u' ->
  Forall2 row_step db (rewrite_row u' db).
Proof.
  intros (Hnd & _ & _) Hin Hstep. unfold rewrite_row.
  apply Forall2_fmap_r. apply Forall_Forall2_diag. apply Forall_forall.
  intros r Hr. simpl. case_bool_decide as E; [|apply row_step_refl].
  destruct Hstep as (Hid & Hrest).
  assert (r = u) as -> by (apply (key_unique User.id db); congruence).
  by split.
Qed.

(** X13.  Under the unique constraints no request changes the key, the
    email, the username, the password hash or the creation time of a
    row, and none changes a verified row at all: verify-email and
    resend rewrite rows in place, login writes nothing, and register
    only appends. *)
Theorem handlers_keep_identity_and_verified db :
  store_ok db ->
  (forall tok t_dec t_chk,
     Forall2 row_step db (table_after (verify_email settings tok t_dec t_chk) db)) /\
  (forall email t_tok t_exp,
     Forall2 row_step db
       (table_after (resend_verification_email settings email t_tok t_exp) db)) /\
  (forall username password now,
     table_after (login settings username password now) db = db) /\
  (forall user salt t_db t_tok t_exp,
     exists rest,
       table_after (register settings user salt t_db t_tok t_exp) db = db ++ rest /\
       (length rest <= 1)%nat).
Proof.
  intros Hok. split; [|split; [|split]].
  - intros tok t_dec t_chk.
    destruct (verify_email_table tok t_dec t_chk db) as [->|(u & Hin & Hv & _ & ->)].
    + apply Forall_Forall2_diag, Forall_forall. intros; apply row_step_refl.
    + apply (rewrite_row_step u); [done..|].
      repeat split. rewrite Hv. discriminate.
  - intros email t_tok t_exp.
    destruct (resend_table email t_tok t_exp db)
      as [->|(u & tok & e & Hin & Hv & ->)].
    + apply Forall_Forall2_diag, Forall_forall. intros; apply row_step_refl.
    + apply (rewrite_row_step u); [done..|].
      repeat split. rewrite Hv. discriminate.
  - intros. apply login_readonly.
  - intros user salt t_db t_tok t_exp.
    destruct (register_table user salt t_db t_tok t_exp db) as [->|(_ & _ & ->)].
    + exists []. split; [by rewrite app_nil_r|simpl; lia].
    + eexists. split; [reflexivity|]. simpl. lia.
Qed.

Lemma rewrite_row_Forall (P : User.t -> Prop) u db :
  Forall P db -> P u -> Forall P (rewrite_row u db).
Proof.
  intros Hdb Hu. unfold rewrite_row. apply Forall_fmap.
  eapply Forall_impl; [exact Hdb|]. intros r Hr. simpl. by case_bool_decide.
Qed.

Lemma rewrite_row_verified u u' db :
  User.email_verified u = false ->
  u' ∈ rewrite_row u db -> User.email_verified u' = true -> u' ∈ db.
Proof.
  intros Hu (r & -> & Hr)%list_elem_of_fmap. case_bool_decide; [congruence|done].
Qed.

(** X25.  On a table whose unverified rows all hold a stored expiry, as
    every row that register or resend wrote does, no request changes
    who is verified: register, login and resend leave a table of that
    kind in which every verified row is a row of the table before, and
    verify-email changes nothing at all, whatever token it is given.  So
    from the empty table no sequence of requests reaches a verified
    user. *)
Theorem no_request_verifies db :
  Forall expiry_stored db ->
  let keeps (db' : list User.t) :=
    Forall expiry_stored db' /\
    (forall u, u ∈ db' -> User.email_verified u = true -> u ∈ db) in
  (forall user salt t_db t_tok t_exp,
     keeps (table_after (register settings user salt t_db t_tok t_exp) db)) /\
  (forall username password now,
     keeps (table_after (login settings username password now) db)) /\
  (forall tok t_dec t_chk,
     table_after (verify_email settings tok t_dec t_chk) db = db) /\
  (forall email t_tok t_exp,
     keeps (table_after (resend_verification_email settings email t_tok t_exp) db)).
Proof.
  intros Hdb keeps.
  assert (Hsame : keeps db) by (split; [exact Hdb|done]).
  split; [|split; [|split]].
  - intros user salt t_db t_tok t_exp.
    destruct (register_table user salt t_db t_tok t_exp db) as [->|(_ & _ & ->)];
      [exact Hsame|].
    split.
    + apply Forall_app. split; [exact Hdb|]. apply Forall_singleton.
      intros _. simpl. eauto.
    + intros u [Hu| ->%list_elem_of_singleton]%elem_of_app; [done|discriminate].
  - intros. by rewrite login_readonly.
  - intros tok t_dec t_chk.
    destruct (verify_email_table tok t_dec t_chk db)
      as [->|(u & Hin & Hv & He & _)]; [reflexivity|].
    rewrite Forall_forall in Hdb. destruct (Hdb u Hin Hv) as [e He'].
    congruence.
  - intros email t_tok t_exp.
    destruct (resend_table email t_tok t_exp db)
      as [->|(u & tok & e & Hin & Hv & ->)]; [exact Hsame|].
    split.
    + apply rewrite_row_Forall; [exact Hdb|]. intros _. simpl. eauto.
    + intros u'. by apply rewrite_row_verified.
Qed.

End LifecycleMore.

(** ** The constraints of the table, and how requests can end *)

Section Constraints.
Variable settings : Settings.






Lemma rewrite_row_hashes u' db :
  hashes_ok db ->
  (exists salt pw, User.hashed_password u' = Argon2 salt pw) ->
  hashes_ok (rewrite_row u' db).
Proof.
  intros Hdb Hu r (r0 & -> & Hr0)%list_elem_of_fmap.
  case_bool_decide; [exact Hu|by apply Hdb].
Qed.

(** X14.  The primary key and the unique constraints on email and
    username hold after every request if they held before, so no
    request can leave two rows with one key, one email or one username;
    and every stored hash stays one that the hasher produced. *)
Theorem requests_keep_table_constraints db :
  store_ok db -> hashes_ok db ->
  (forall user salt t_db t_tok t_exp,
     store_ok (table_after (register settings user salt t_db t_tok t_exp) db) /\
     hashes_ok (table_after (register settings user salt t_db t_tok t_exp) db)) /\
  (forall username password now,
     store_ok (table_after (login settings username password now) db) /\
     hashes_ok (table_after (login settings username password now) db)) /\
  (forall tok t_dec t_chk,
     store_ok (table_after (verify_email settings tok t_dec t_chk) db) /\
     hashes_ok (table_after (verify_email settings tok t_dec t_chk) db)) /\
  (forall email t_tok t_exp,
     store_ok (table_after (resend_verification_email settings email t_tok t_exp) db) /\
     hashes_ok (table_after (resend_verification_email settings email t_tok t_exp) db)).
Proof.
  intros Hok Hh. split; [|split; [|split]].
  - intros user salt t_db t_tok t_exp.
    split; [by apply register_store_ok|].
    destruct (register_table settings user salt t_db t_tok t_exp db)
      as [->|(_ & _ & ->)]; [exact Hh|].
    intros r [Hr| ->%list_elem_of_singleton]%elem_of_app; [by apply Hh|].
    simpl. eauto.
  - intros. by rewrite login_readonly.
  - intros tok t_dec t_chk. split; [by apply verify_email_store_ok|].
    destruct (verify_email_table settings tok t_dec t_chk db)
      as [->|(u & Hin & _ & _ & ->)]; [exact Hh|].
    apply rewrite_row_hashes; [exact Hh|]. simpl. by apply Hh.
  - intros email t_tok t_exp. split; [by apply resend_store_ok|].
    destruct (resend_table settings email t_tok t_exp db)
      as [->|(u & tok & e & Hin & _ & ->)]; [exact Hh|].
    apply rewrite_row_hashes; [exact Hh|]. simpl. by apply Hh.
Qed.






End Constraints.

(** ** The task routes *)

Lemma tbind_unfold {A B : Type} (m : TM A) (f : A -> TM B) (db : list Task.t) :
  (m ≫= f) db = match m db with Return (a, db') => f a db' | Raise e => Raise e end.
Proof. reflexivity. Qed.

Lemma select_tasks_unfold (P : Task.t -> Prop) `{forall t, Decision (P t)} db :
  select_tasks P db = Return (filter P db, db).
Proof. reflexivity. Qed.

Lemma task_key_unique (db : list Task.t) x y :
  tasks_ok db -> x ∈ db -> y ∈ db -> Task.id x = Task.id y -> x = y.
Proof.
  unfold tasks_ok.
  induction db as [|a db IH]; intros Hnd Hx Hy Hf; [by apply elem_of_nil in Hx|].
  rewrite fmap_cons in Hnd. apply NoDup_cons in Hnd as [Hna Hnd].
  apply elem_of_cons in Hx as [->|Hx]; apply elem_of_cons in Hy as [->|Hy].
  - reflexivity.
  - exfalso. apply Hna. rewrite Hf. apply list_elem_of_fmap. eauto.
  - exfalso. apply Hna. rewrite <- Hf. apply list_elem_of_fmap. eauto.
  - by apply IH.
Qed.

(** The query of the four routes that name a task: the caller's row
    with that key, when there is one. *)
Lemma own_task_found db t u :
  tasks_ok db -> t ∈ db -> Task.user_id t = User.id u ->
  filter (fun r => Task.id r = Task.id t /\ Task.user_id r = User.id u) db = [t].
Proof.
  intros Hok Hin Hown.
  induction db as [|a db IH]; [by apply elem_of_nil in Hin|].
  pose proof Hok as Hok'. unfold tasks_ok in Hok'.
  rewrite fmap_cons in Hok'. apply NoDup_cons in Hok' as [Hna Hnd].
  destruct (decide (a = t)) as [->|Hne].
  - rewrite filter_cons_True by done. f_equal.
    apply filter_none. intros r Hr [Hid _]. apply Hna. rewrite <- Hid.
    apply list_elem_of_fmap. eauto.
  - apply elem_of_cons in Hin as [->|Hin]; [done|].
    rewrite filter_cons_False; [by apply IH|].
    intros [Hid _]. apply Hne.
    apply (task_key_unique (a :: db)); [done|by left|by right|done].
Qed.

Lemma own_task_absent db task_id u :
  (forall r, r ∈ db -> Task.id r = task_id -> Task.user_id r <> User.id u) ->
  filter (fun r => Task.id r = task_id /\ Task.user_id r = User.id u) db = [].
Proof.
  intros Habs. apply filter_none. intros r Hr [Hid Hown]. by apply (Habs r).
Qed.

Lemma next_task_id_fresh db r : r ∈ db -> Task.id r < next_task_id db.
Proof.
  unfold next_task_id. induction db as [|a db IH]; intros Hin;
    [by apply elem_of_nil in Hin|].
  simpl. apply elem_of_cons in Hin as [->|Hin]; [lia|].
  specialize (IH Hin). lia.
Qed.

Lemma rewrite_task_ids t db : Task.id <$> rewrite_task t db = Task.id <$> db.
Proof.
  unfold rewrite_task. rewrite <- list_fmap_compose.
  apply Forall_fmap_ext_1, Forall_forall. intros r Hr. simpl.
  by case_bool_decide.
Qed.

Lemma rewrite_task_elem old t db :
  old ∈ db -> Task.id t = Task.id old -> t ∈ rewrite_task t db.
Proof.
  intros Hin Hid. unfold rewrite_task. apply list_elem_of_fmap.
  exists old. split; [|exact Hin]. by rewrite bool_decide_eq_true_2.
Qed.

Lemma rewrite_task_other t r db :
  r ∈ db -> Task.id r <> Task.id t -> r ∈ rewrite_task t db.
Proof.
  intros Hin Hid. unfold rewrite_task. apply list_elem_of_fmap.
  exists r. split; [|exact Hin]. by rewrite bool_decide_eq_false_2.
Qed.

(** Rewriting or deleting a row of [u] leaves the rows of others. *)
Lemma rewrite_task_others u t db :
  (forall r, r ∈ db -> Task.id r = Task.id t -> Task.user_id r = User.id u) ->
  Task.user_id t = User.id u ->
  rows_of_others u (rewrite_task t db) = rows_of_others u db.
Proof.
  intros Hall Hown. unfold rows_of_others, rewrite_task.
  induction db as [|a db IH]; [reflexivity|].
  rewrite fmap_cons.
  assert (IH' : filter (fun r => Task.user_id r <> User.id u)
                  ((fun r => if bool_decide (Task.id r = Task.id t) then t else r) <$> db)
                = filter (fun r => Task.user_id r <> User.id u) db).
  { apply IH. intros r Hr. apply Hall. by right. }
  case_bool_decide as E.
  - rewrite !filter_cons_False; [exact IH'| |].
    + intros Hne. apply Hne. apply Hall; [by left|done].
    + intros Hne. by apply Hne.
  - destruct (decide (Task.user_id a <> User.id u)).
    + rewrite !filter_cons_True by done. by f_equal.
    + rewrite !filter_cons_False by done. exact IH'.
Qed.

Lemma delete_task_others u t db :
  (forall r, r ∈ db -> Task.id r = Task.id t -> Task.user_id r = User.id u) ->
  rows_of_others u (filter (fun r => Task.id r <> Task.id t) db) = rows_of_others u db.
Proof.
  intros Hall. unfold rows_of_others.
  induction db as [|a db IH]; [reflexivity|].
  assert (IH' : filter (fun r => Task.user_id r <> User.id u)
                  (filter (fun r => Task.id r <> Task.id t) db)
                = filter (fun r => Task.user_id r <> User.id u) db).
  { apply IH. intros r Hr. apply Hall. by right. }
  destruct (decide (Task.id a = Task.id t)) as [E|E].
  - rewrite (filter_cons_False (fun r => Task.id r <> Task.id t))
      by (intros Hne; by apply Hne).
    rewrite filter_cons_False; [exact IH'|].
    intros Hne. apply Hne. apply Hall; [by left|done].
  - rewrite (filter_cons_True (fun r => Task.id r <> Task.id t)) by done.
    destruct (decide (Task.user_id a <> User.id u)).
    + rewrite !filter_cons_True by done. by f_equal.
    + rewrite !filter_cons_False by done. exact IH'.
Qed.

(** The rows with the key of a row of [u] are that row. *)
Lemma own_key db t u r :
  tasks_ok db -> t ∈ db -> Task.user_id t = User.id u ->
  r ∈ db -> Task.id r = Task.id t -> Task.user_id r = User.id u.
Proof.
  intros Hok Hin Hown Hr Hid.
  by rewrite (task_key_unique db r t Hok Hr Hin Hid).
Qed.

(** The routes that name a task, once their query is answered. *)
Lemma named_task_query db task_id u :
  tasks_ok db ->
  (filter (fun r => Task.id r = task_id /\ Task.user_id r = User.id u) db = [] /\
   forall r, r ∈ db -> Task.id r = task_id -> Task.user_id r <> User.id u) \/
  (exists t, t ∈ db /\ Task.id t = task_id /\ Task.user_id t = User.id u /\
     filter (fun r => Task.id r = task_id /\ Task.user_id r = User.id u) db = [t]).
Proof.
  intros Hok.
  destruct (decide (Exists (fun r => Task.id r = task_id /\
                                     Task.user_id r = User.id u) db)) as [Hex|Hex].
  - right. apply Exists_exists in Hex as (t & Hin & <- & Hown).
    exists t. repeat split; try done. by apply own_task_found.
  - left. assert (Habs : forall r, r ∈ db -> Task.id r = task_id ->
                         Task.user_id r <> User.id u).
    { intros r Hr Hid Hown. apply Hex, Exists_exists. eauto. }
    split; [by apply own_task_absent|exact Habs].
Qed.

Lemma get_task_found db t u :
  tasks_ok db -> t ∈ db -> Task.user_id t = User.id u ->
  get_task (Task.id t) u db = Return (t, db).
Proof.
  intros Hok Hin Hown. unfold get_task.
  rewrite tbind_unfold, select_tasks_unfold, own_task_found by done.
  reflexivity.
Qed.

Lemma task_of_another_is_not_found_aux db task_id u task_update t_db :
  (forall r, r ∈ db -> Task.id r = task_id -> Task.user_id r <> User.id u) ->
  get_task task_id u db = Raise (task_not_found task_id) /\
  update_task task_id task_update u t_db db = Raise (task_not_found task_id) /\
  delete_task task_id u db = Raise (task_not_found task_id) /\
  toggle_task task_id u t_db db = Raise (task_not_found task_id).
Proof.
  intros Habs.
  unfold get_task, update_task, delete_task, toggle_task.
  rewrite !tbind_unfold, !select_tasks_unfold, !own_task_absent by done.
  done.
Qed.

(** X16.  A task that does not exist and a task of another user are
    the same to the caller: reading, updating, deleting and toggling it
    all raise the same 404, and nothing is written. *)
Theorem task_of_another_is_not_found db task_id u task_update t_db :
  (forall r, r ∈ db -> Task.id r = task_id -> Task.user_id r <> User.id u) ->
  get_task task_id u db = Raise (task_not_found task_id) /\
  update_task task_id task_update u t_db db = Raise (task_not_found task_id) /\
  delete_task task_id u db = Raise (task_not_found task_id) /\
  toggle_task task_id u t_db db = Raise (task_not_found task_id).
Proof.
  intros Habs.
  unfold get_task, update_task, delete_task, toggle_task.
  rewrite !tbind_unfold, !select_tasks_unfold, !own_task_absent by done.
  done.
Qed.

(** X17.  A created task belongs to the caller, has a key above every
    key of the table and the title, description and flag of the
    request; the caller reads it back by that key, and every other user
    gets 404 for it. *)
Theorem create_task_then_get db task u v t_db :
  tasks_ok db -> User.id v <> User.id u ->
  let row :=
    {| Task.id := next_task_id db; Task.title := TaskCreate.title task;
       Task.description := TaskCreate.description task;
       Task.completed := TaskCreate.completed task;
       Task.user_id := User.id u; Task.created_at := t_db;
       Task.updated_at := t_db |} in
  create_task task u t_db db = Return (row, db ++ [row]) /\
  (forall r, r ∈ db -> Task.id r < Task.id row) /\
  tasks_ok (db ++ [row]) /\
  get_task (Task.id row) u (db ++ [row]) = Return (row, db ++ [row]) /\
  get_task (Task.id row) v (db ++ [row]) = Raise (task_not_found (Task.id row)).
Proof.
  intros Hok Hv row.
  assert (Hok' : tasks_ok (db ++ [row])).
  { unfold tasks_ok. rewrite fmap_app. apply NoDup_app.
    split; [exact Hok|]. split; [|apply NoDup_singleton].
    intros x (r & -> & Hr)%list_elem_of_fmap Hx%list_elem_of_singleton.
    simpl in Hx. pose proof (next_task_id_fresh db r Hr). lia. }
  assert (Hin : row ∈ db ++ [row])
    by (apply elem_of_app; right; by apply list_elem_of_singleton).
  split; [reflexivity|]. split; [intros r Hr; by apply next_task_id_fresh|].
  split; [exact Hok'|]. split.
  - by apply get_task_found.
  - unfold get_task.
    rewrite tbind_unfold, select_tasks_unfold, own_task_absent; [reflexivity|].
    intros r Hr Hid.
    rewrite (task_key_unique (db ++ [row]) r row Hok' Hr Hin Hid). simpl.
    congruence.
Qed.

(** X18.  Deleting one's task answers success with the key in the
    message, removes that row and no other, and from then on the key
    reads as not found. *)
Theorem delete_task_removes_that_task db t u :
  tasks_ok db -> t ∈ db -> Task.user_id t = User.id u ->
  let db' := filter (fun r => Task.id r <> Task.id t) db in
  delete_task (Task.id t) u db =
    Return ({| message := "Task " +:+ pretty (Task.id t) +:+ " deleted successfully";
               success := true |}, db') /\
  (t ∉ db') /\
  (forall r, r ∈ db -> r <> t -> r ∈ db') /\
  tasks_ok db' /\
  get_task (Task.id t) u db' = Raise (task_not_found (Task.id t)).
Proof.
  intros Hok Hin Hown db'. split; [|split; [|split; [|split]]].
  - unfold delete_task.
    rewrite tbind_unfold, select_tasks_unfold, own_task_found by done.
    reflexivity.
  - intros [Hne _]%list_elem_of_filter. by apply Hne.
  - intros r Hr Hne. apply list_elem_of_filter. split; [|exact Hr].
    intros Hid. apply Hne. by apply (task_key_unique db).
  - unfold tasks_ok, db'.
    apply (NoDup_fmap_2_strong Task.id); [|by apply NoDup_filter, (NoDup_fmap_1 Task.id)].
    intros x y [_ Hx]%list_elem_of_filter [_ Hy]%list_elem_of_filter Hid.
    by apply (task_key_unique db).
  - unfold get_task.
    rewrite tbind_unfold, select_tasks_unfold, own_task_absent; [reflexivity|].
    intros r [Hne _]%list_elem_of_filter Hid. by destruct Hne.
Qed.

Lemma set_completed_negb_ne t : set_completed t (negb (Task.completed t)) <> t.
Proof.
  intros H. apply (f_equal Task.completed) in H. simpl in H.
  by destruct (Task.completed t).
Qed.

Lemma toggle_task_found db t u t_db :
  tasks_ok db -> t ∈ db -> Task.user_id t = User.id u ->
  toggle_task (Task.id t) u t_db db =
    Return (set_updated_at (set_completed t (negb (Task.completed t))) t_db,
            rewrite_task
              (set_updated_at (set_completed t (negb (Task.completed t))) t_db) db).
Proof.
  intros Hok Hin Hown. unfold toggle_task.
  rewrite tbind_unfold, select_tasks_unfold, own_task_found by done.
  rewrite tbind_unfold. unfold task_scalar_one_or_none, mret, TM_ret, task_flush.
  by rewrite bool_decide_eq_false_2 by apply set_completed_negb_ne.
Qed.

Lemma rewrite_task_twice t1 t2 db :
  Task.id t2 = Task.id t1 ->
  rewrite_task t2 (rewrite_task t1 db) = rewrite_task t2 db.
Proof.
  intros Hid. unfold rewrite_task. rewrite <- list_fmap_compose.
  apply Forall_fmap_ext_1, Forall_forall. intros r Hr. simpl.
  destruct (decide (Task.id r = Task.id t1)) as [E|E].
  - rewrite (bool_decide_eq_true_2 (Task.id r = Task.id t1)) by done.
    rewrite !bool_decide_eq_true_2 by congruence. reflexivity.
  - rewrite (bool_decide_eq_false_2 (Task.id r = Task.id t1)) by done.
    reflexivity.
Qed.

(** X19.  Toggling one's task flips the flag and stamps [updated_at],
    and changes nothing else of the row; toggling it again gives back
    the original row but for the stamp, in the row returned and in the
    table. *)
Theorem toggle_task_twice db t u t1 t2 :
  tasks_ok db -> t ∈ db -> Task.user_id t = User.id u ->
  let once := set_updated_at (set_completed t (negb (Task.completed t))) t1 in
  toggle_task (Task.id t) u t1 db = Return (once, rewrite_task once db) /\
  once ∈ rewrite_task once db /\
  Task.completed once = negb (Task.completed t) /\
  toggle_task (Task.id t) u t2 (rewrite_task once db) =
    Return (set_updated_at t t2, rewrite_task (set_updated_at t t2) db).
Proof.
  intros Hok Hin Hown once.
  assert (Hin1 : once ∈ rewrite_task once db) by (by apply (rewrite_task_elem t)).
  assert (Hok1 : tasks_ok (rewrite_task once db))
    by (unfold tasks_ok; by rewrite rewrite_task_ids).
  split; [by apply toggle_task_found|]. split; [exact Hin1|].
  split; [reflexivity|].
  change (Task.id t) with (Task.id once).
  rewrite (toggle_task_found (rewrite_task once db) once u t2 Hok1 Hin1 Hown).
  assert (Hback : set_updated_at (set_completed once (negb (Task.completed once))) t2
                  = set_updated_at t t2).
  { unfold once, set_updated_at, set_completed. simpl.
    rewrite negb_involutive. reflexivity. }
  rewrite Hback. f_equal. f_equal. by apply rewrite_task_twice.
Qed.

Lemma set_updated_at_eq a b v :
  set_updated_at a v = b -> Task.updated_at a = Task.updated_at b -> a = b.
Proof.
  destruct a, b. unfold set_updated_at. simpl.
  intros [= -> -> -> -> -> -> _] ->. reflexivity.
Qed.

(** X20.  Updating one's task sets exactly the fields the request
    provides and keeps the others, and it never changes the key, the
    owner or the creation time.  A request that provides no new value
    returns the row as it is and writes nothing; any other stamps
    [updated_at] and rewrites the row.  A description cannot be cleared. *)
Theorem update_task_sets_provided_fields db t u task_update t_db :
  tasks_ok db -> t ∈ db -> Task.user_id t = User.id u ->
  exists t' db',
    update_task (Task.id t) task_update u t_db db = Return (t', db') /\
    task_step t t' /\
    Task.title t' = default (Task.title t) (TaskUpdate.title task_update) /\
    Task.description t' =
      match TaskUpdate.description task_update with
      | Some v => Some v
      | None => Task.description t
      end /\
    Task.completed t' = default (Task.completed t) (TaskUpdate.completed task_update) /\
    (is_Some (Task.description t) -> is_Some (Task.description t')) /\
    ((t' = t /\ db' = db) \/
     (t' <> t /\ Task.updated_at t' = t_db /\ db' = rewrite_task t' db /\ t' ∈ db')) /\
    (TaskUpdate.title task_update = None ->
     TaskUpdate.description task_update = None ->
     TaskUpdate.completed task_update = None ->
     t' = t /\ db' = db).
Proof.
  intros Hok Hin Hown. unfold update_task.
  rewrite tbind_unfold, select_tasks_unfold, own_task_found by done.
  rewrite tbind_unfold. unfold task_scalar_one_or_none, mret, TM_ret, task_flush.
  set (task1 := match TaskUpdate.title task_update with
                | Some v => set_title t v | None => t end).
  set (task2 := match TaskUpdate.description task_update with
                | Some v => set_description task1 v | None => task1 end).
  set (task3 := match TaskUpdate.completed task_update with
                | Some v => set_completed task2 v | None => task2 end).
  assert (Hfields :
    task_step t task3 /\
    Task.title task3 = default (Task.title t) (TaskUpdate.title task_update) /\
    Task.description task3 =
      match TaskUpdate.description task_update with
      | Some v => Some v
      | None => Task.description t
      end /\
    Task.completed task3 =
      default (Task.completed t) (TaskUpdate.completed task_update) /\
    Task.updated_at task3 = Task.updated_at t).
  { unfold task3, task2, task1, task_step.
    destruct (TaskUpdate.title task_update), (TaskUpdate.description task_update),
      (TaskUpdate.completed task_update); done. }
  destruct Hfields as (Hstep & Htitle & Hdesc & Hcompl & Hupd).
  case_bool_decide as Hsame.
  - rewrite Hsame in Hstep, Htitle, Hdesc, Hcompl.
    exists t, db.
    split; [reflexivity|]. split; [exact Hstep|].
    split; [exact Htitle|]. split; [exact Hdesc|]. split; [exact Hcompl|].
    split; [done|]. split; [by left|done].
  - exists (set_updated_at task3 t_db), (rewrite_task (set_updated_at task3 t_db) db).
    split; [reflexivity|]. split; [exact Hstep|].
    split; [exact Htitle|]. split; [exact Hdesc|]. split; [exact Hcompl|].
    split; [|split].
    + simpl. rewrite Hdesc. by destruct (TaskUpdate.description task_update).
    + right. split; [|split; [reflexivity|split; [reflexivity|]]].
      * intros Heq. apply Hsame. by apply (set_updated_at_eq _ _ t_db).
      * apply (rewrite_task_elem t); [exact Hin|]. simpl. by destruct Hstep.
    + intros H1 H2 H3. exfalso. apply Hsame.
      unfold task3, task2, task1. by rewrite H1, H2, H3.
Qed.

#[global] Instance created_desc_total : Total created_desc.
Proof. intros a b. unfold created_desc. lia. Qed.

#[global] Instance created_desc_trans : Transitive created_desc.
Proof. intros a b c. unfold created_desc. lia. Qed.

(** X21.  The list route returns the caller's tasks and only those,
    each as often as the table holds it, restricted to the asked flag
    when one is given, newest first; the single-task route returns only
    a row of the caller with the asked key; neither writes. *)
Theorem reads_return_own_tasks db u :
  (exists rows,
     get_tasks None u db = Return (rows, db) /\
     rows ≡ₚ filter (fun t => Task.user_id t = User.id u) db /\
     StronglySorted created_desc rows) /\
  (forall c, exists rows,
     get_tasks (Some c) u db = Return (rows, db) /\
     rows ≡ₚ filter (fun t => Task.user_id t = User.id u /\ Task.completed t = c) db /\
     StronglySorted created_desc rows) /\
  (forall task_id r db',
     get_task task_id u db = Return (r, db') ->
     db' = db /\ r ∈ db /\ Task.id r = task_id /\ Task.user_id r = User.id u).
Proof.
  split; [|split].
  - eexists. split; [reflexivity|]. split.
    + apply merge_sort_Permutation.
    + apply StronglySorted_merge_sort; apply _.
  - intros c. eexists. split; [reflexivity|]. split.
    + apply merge_sort_Permutation.
    + apply StronglySorted_merge_sort; apply _.
  - intros task_id r db'. unfold get_task.
    rewrite tbind_unfold, select_tasks_unfold, tbind_unfold.
    destruct (filter _ db) as [|a [|b l]] eqn:E; simpl; try discriminate.
    intros [= -> <-].
    assert (Hr : r ∈ filter (fun t => Task.id t = task_id /\
                                      Task.user_id t = User.id u) db)
      by (rewrite E; by left).
    apply list_elem_of_filter in Hr as [[Hid Hown] Hin]. done.
Qed.

Lemma update_task_shape db t u task_update t_db :
  tasks_ok db -> t ∈ db -> Task.user_id t = User.id u ->
  update_task (Task.id t) task_update u t_db db = Return (t, db) \/
  exists t', Task.id t' = Task.id t /\ Task.user_id t' = Task.user_id t /\
    update_task (Task.id t) task_update u t_db db = Return (t', rewrite_task t' db).
Proof.
  intros Hok Hin Hown. unfold update_task.
  rewrite tbind_unfold, select_tasks_unfold, own_task_found by done.
  rewrite tbind_unfold. unfold task_scalar_one_or_none, mret, TM_ret, task_flush.
  case_bool_decide; [by left|]. right. eexists. split; [|split; [|reflexivity]].
  - simpl. by destruct (TaskUpdate.title task_update),
      (TaskUpdate.description task_update), (TaskUpdate.completed task_update).
  - simpl. by destruct (TaskUpdate.title task_update),
      (TaskUpdate.description task_update), (TaskUpdate.completed task_update).
Qed.

Lemma rewrite_own_task_ok db t t' u :
  tasks_ok db -> t ∈ db -> Task.user_id t = User.id u ->
  Task.id t' = Task.id t -> Task.user_id t' = Task.user_id t ->
  tasks_ok (rewrite_task t' db) /\
  rows_of_others u (rewrite_task t' db) = rows_of_others u db.
Proof.
  intros Hok Hin Hown Hid Hu. split.
  - unfold tasks_ok. by rewrite rewrite_task_ids.
  - apply rewrite_task_others; [|congruence].
    intros r Hr Hrid. apply (own_key db t u r); congruence.
Qed.

Lemma tasks_ok_filter (P : Task.t -> Prop) `{forall t, Decision (P t)} db :
  tasks_ok db -> tasks_ok (filter P db).
Proof.
  intros Hok. unfold tasks_ok.
  apply (NoDup_fmap_2_strong Task.id);
    [|by apply NoDup_filter, (NoDup_fmap_1 Task.id)].
  intros x y [_ Hx]%list_elem_of_filter [_ Hy]%list_elem_of_filter Hid.
  by apply (task_key_unique db).
Qed.

Lemma create_task_keeps db u task t_db r db' :
  tasks_ok db -> create_task task u t_db db = Return (r, db') ->
  tasks_ok db' /\ rows_of_others u db' = rows_of_others u db.
Proof.
  intros Hok [= <- <-]. split.
  - unfold tasks_ok. rewrite fmap_app. apply NoDup_app.
    split; [exact Hok|]. split; [|apply NoDup_singleton].
    intros x (r & -> & Hr)%list_elem_of_fmap Hx%list_elem_of_singleton.
    simpl in Hx. pose proof (next_task_id_fresh db r Hr). lia.
  - unfold rows_of_others. rewrite filter_app.
    rewrite (filter_cons_False _ _ []) by (intros Hne; by apply Hne).
    by rewrite filter_nil, app_nil_r.
Qed.

Lemma update_task_keeps db u task_id task_update t_db r db' :
  tasks_ok db -> update_task task_id task_update u t_db db = Return (r, db') ->
  tasks_ok db' /\ rows_of_others u db' = rows_of_others u db.
Proof.
  intros Hok Hret.
  destruct (named_task_query db task_id u Hok)
    as [[_ Habs]|(t & Hin & <- & Hown & _)].
  - destruct (task_of_another_is_not_found_aux db task_id u task_update t_db Habs)
      as (_ & Hupd & _). congruence.
  - destruct (update_task_shape db t u task_update t_db Hok Hin Hown)
      as [Hsame|(t' & Hid & Hu & Hnew)].
    + rewrite Hsame in Hret. by injection Hret as <- <-.
    + rewrite Hnew in Hret. injection Hret as <- <-.
      by apply (rewrite_own_task_ok db t).
Qed.

Lemma delete_task_keeps db u task_id r db' :
  tasks_ok db -> delete_task task_id u db = Return (r, db') ->
  tasks_ok db' /\ rows_of_others u db' = rows_of_others u db.
Proof.
  intros Hok Hret.
  destruct (named_task_query db task_id u Hok)
    as [[_ Habs]|(t & Hin & <- & Hown & Hq)].
  - destruct (task_of_another_is_not_found_aux db task_id u
                {| TaskUpdate.title := None; TaskUpdate.description := None;
                   TaskUpdate.completed := None |} 0 Habs)
      as (_ & _ & Hdel & _). congruence.
  - revert Hret. unfold delete_task.
    rewrite tbind_unfold, select_tasks_unfold, Hq. intros [= _ <-]. split.
    + by apply tasks_ok_filter.
    + apply delete_task_others. intros x Hx Hid. by apply (own_key db t).
Qed.

Lemma toggle_task_keeps db u task_id t_db r db' :
  tasks_ok db -> toggle_task task_id u t_db db = Return (r, db') ->
  tasks_ok db' /\ rows_of_others u db' = rows_of_others u db.
Proof.
  intros Hok Hret.
  destruct (named_task_query db task_id u Hok)
    as [[_ Habs]|(t & Hin & <- & Hown & _)].
  - destruct (task_of_another_is_not_found_aux db task_id u
                {| TaskUpdate.title := None; TaskUpdate.description := None;
                   TaskUpdate.completed := None |} t_db Habs)
      as (_ & _ & _ & Htog). congruence.
  - rewrite (toggle_task_found db t u t_db Hok Hin Hown) in Hret.
    injection Hret as <- <-. by apply (rewrite_own_task_ok db t).
Qed.

(** X22.  Whatever a task route writes for a caller, the keys of the
    table stay unique and the rows of every other user stay exactly as
    they were, in the same order. *)
Theorem task_routes_keep_keys_and_rows_of_others db u :
  tasks_ok db ->
  (forall task t_db r db',
     create_task task u t_db db = Return (r, db') ->
     tasks_ok db' /\ rows_of_others u db' = rows_of_others u db) /\
  (forall task_id task_update t_db r db',
     update_task task_id task_update u t_db db = Return (r, db') ->
     tasks_ok db' /\ rows_of_others u db' = rows_of_others u db) /\
  (forall task_id r db',
     delete_task task_id u db = Return (r, db') ->
     tasks_ok db' /\ rows_of_others u db' = rows_of_others u db) /\
  (forall task_id t_db r db',
     toggle_task task_id u t_db db = Return (r, db') ->
     tasks_ok db' /\ rows_of_others u db' = rows_of_others u db).
Proof.
  intros Hok. split; [|split; [|split]].
  - intros task t_db r db'. by apply create_task_keeps.
  - intros task_id task_update t_db r db'. by apply update_task_keeps.
  - intros task_id r db'. by apply delete_task_keeps.
  - intros task_id t_db r db'. by apply toggle_task_keeps.
Qed.

(** ** Requests to the protected routes *)

Section Protected.
Variable settings : Settings.

Lemma get_current_user_db tok now db u db' :
  get_current_user settings tok now db = Return (u, db') -> db' = db.
Proof.
  unfold get_current_user. rewrite bind_unfold. unfold call.
  destruct (decode_access_token settings tok now) as [[p|]|e]; try discriminate.
  destruct (p !! "sub") as [name|]; [|discriminate].
  destruct (p !! "user_id"); [|discriminate].
  rewrite bind_unfold.
  destruct (get_user_by_username name db) as [[[r|] db1]|e] eqn:Hrow;
    try discriminate.
  intros [= _ <-]. by apply get_user_by_username_db in Hrow.
Qed.

(** X23.  A request to a protected route never changes the users
    table; when the token does not parse the route is not run, the
    answer is 401 and both tables are as before; and whenever the
    request raises, from the gate or from the route, both tables are as
    before. *)
Theorem protected_request_frame tok now db :
  (forall (A : Type) (route : User.t -> TM A),
     users (snd (protected settings tok now route db)) = users db) /\
  (forall (A : Type) (route : User.t -> TM A),
     decode_access_token settings tok now = Return None ->
     protected settings tok now route db = (Raise credentials_exception, db)) /\
  (forall (A : Type) (route : User.t -> TM A) e,
     fst (protected settings tok now route db) = Raise e ->
     snd (protected settings tok now route db) = db).
Proof.
  split; [|split].
  - intros A route. unfold protected.
    destruct (get_current_user settings tok now (users db)) as [[u users']|e] eqn:E;
      [|reflexivity].
    apply get_current_user_db in E as ->.
    by destruct (route u (tasks db)) as [[a tasks']|e].
  - intros A route Hdec. unfold protected.
    pose proof (get_current_user_invalid settings tok now (users db) Hdec) as H.
    unfold get_db in H.
    destruct (get_current_user settings tok now (users db)) as [[? ?]|e];
      [discriminate|]. by injection H as ->.
  - intros A route e. unfold protected.
    destruct (get_current_user settings tok now (users db)) as [[u users']|e'];
      [|reflexivity].
    by destruct (route u (tasks db)) as [[a tasks']|e'].
Qed.

(** A protected route, for the bearer of a live login token. *)
Lemma protected_login_token {A : Type} db u now now' (route : User.t -> TM A) :
  store_ok (users db) -> u ∈ users db ->
  timegm now' <= timegm (now + minutes 30) ->
  protected settings (login_token settings u now) now' route db =
    match route u (tasks db) with
    | Raise e => (Raise e, db)
    | Return (a, tasks') => (Return a, {| users := users db; tasks := tasks' |})
    end.
Proof.
  intros Hok Hin Hlive. unfold protected.
  rewrite (gate_on_login_token settings (users db) u now now' Hok Hin).
  by rewrite bool_decide_eq_true_2.
Qed.

(** X24.  With the token login gave to [u], and while it lives, none of
    the writing task routes changes a task of another user or the users
    table, whatever key the request names: create, update, delete and
    toggle leave the rows of the others exactly as they were. *)
Theorem bearer_cannot_change_tasks_of_others db u now now' :
  store_ok (users db) -> tasks_ok (tasks db) -> u ∈ users db ->
  timegm now' <= timegm (now + minutes 30) ->
  let tok := login_token settings u now in
  let kept (out : Database) :=
    users out = users db /\ tasks_ok (tasks out) /\
    rows_of_others u (tasks out) = rows_of_others u (tasks db) in
  (forall task t_db,
     kept (snd (protected settings tok now'
                  (fun cu => create_task task cu t_db) db))) /\
  (forall task_id task_update t_db,
     kept (snd (protected settings tok now'
                  (fun cu => update_task task_id task_update cu t_db) db))) /\
  (forall task_id,
     kept (snd (protected settings tok now'
                  (fun cu => delete_task task_id cu) db))) /\
  (forall task_id t_db,
     kept (snd (protected settings tok now'
                  (fun cu => toggle_task task_id cu t_db) db))).
Proof.
  intros Hok Htok Hin Hlive tok kept.
  split; [|split; [|split]]; intros; unfold kept, tok;
    rewrite protected_login_token by done.
  - destruct (create_task task u t_db (tasks db)) as [[a tasks']|e] eqn:E; [|done].
    simpl. split; [reflexivity|]. by apply (create_task_keeps _ _ _ _ _ _ Htok E).
  - destruct (update_task task_id task_update u t_db (tasks db))
      as [[a tasks']|e] eqn:E; [|done].
    simpl. split; [reflexivity|]. by apply (update_task_keeps _ _ _ _ _ _ _ Htok E).
  - destruct (delete_task task_id u (tasks db)) as [[a tasks']|e] eqn:E; [|done].
    simpl. split; [reflexivity|]. by apply (delete_task_keeps _ _ _ _ _ Htok E).
  - destruct (toggle_task task_id u t_db (tasks db)) as [[a tasks']|e] eqn:E; [|done].
    simpl. split; [reflexivity|]. by apply (toggle_task_keeps _ _ _ _ _ _ Htok E).
Qed.

End Protected.

(** ** The further properties at the sample data *)

Lemma hashes_ok_registered : hashes_ok db_registered.
Proof.
  rewrite db_registered_eq. intros u ->%list_elem_of_singleton. simpl. eauto.
Qed.

Lemma store_ok_registered : store_ok db_registered.
Proof. rewrite db_registered_eq. apply store_ok_singleton. Qed.

Lemma alice_row_registered : alice_row ∈ db_registered.
Proof. rewrite db_registered_eq. apply elem_of_singleton_row. Qed.


Lemma tasks_ok_sample : tasks_ok tasks_sample.
Proof. unfold tasks_ok. apply (bool_decide_unpack _). vm_compute. exact I. Qed.

Lemma store_ok_sample : store_ok (users db_sample).
Proof. repeat split; apply (bool_decide_unpack _); vm_compute; exact I. Qed.

Lemma representable_login_sample : representable (1000000 + minutes 30).
Proof. apply representable_sample. vm_compute. reflexivity. Qed.

Lemma A_alice_signed :
  create_access_token default_settings (access_claims "alice" 1)
    (Some (minutes 30)) 1000000 = Return A_alice.
Proof. vm_compute. reflexivity. Qed.

Lemma access_token_lifetime_witness :
  minutes 30 <> 0 /\
  registered_claims_ok (access_claims "alice" 1) (timegm 1801000000) /\
  representable (1000000 + minutes 30) /\
  decode_access_token default_settings A_alice 1801000000 =
    Return (Some (<["exp" := VInt 1801]> (access_claims "alice" 1))) /\
  decode_access_token default_settings A_alice 1802000000 = Return None /\
  hours 87660000 <> 0 /\
  ~ representable (1000000 + hours 87660000) /\
  create_access_token default_settings (access_claims "alice" 1)
    (Some (hours 87660000)) 1000000 = Raise OverflowError.
Proof.
  assert (H0 : minutes 30 <> 0) by discriminate.
  assert (H1 : hours 87660000 <> 0) by discriminate.
  assert (Hn : ~ representable (1000000 + hours 87660000)).
  { intros H. apply (bool_decide_eq_true_2 _) in H. vm_compute in H. discriminate. }
  split; [exact H0|]. split; [apply access_claims_ok|].
  split; [exact representable_login_sample|]. split; [|split].
  - destruct (access_token_lifetime default_settings (access_claims "alice" 1)
                (minutes 30) 1000000 1801000000 H0 (access_claims_ok _ _ _)) as [H _].
    destruct (H representable_login_sample) as (tok & Hc & Hd).
    rewrite A_alice_signed in Hc. injection Hc as <-. exact Hd.
  - destruct (access_token_lifetime default_settings (access_claims "alice" 1)
                (minutes 30) 1000000 1802000000 H0 (access_claims_ok _ _ _)) as [H _].
    destruct (H representable_login_sample) as (tok & Hc & Hd).
    rewrite A_alice_signed in Hc. injection Hc as <-. exact Hd.
  - split; [exact H1|]. split; [exact Hn|].
    apply (access_token_lifetime default_settings (access_claims "alice" 1)
             (hours 87660000) 1000000 1000000 H1 (access_claims_ok _ _ _)).
    exact Hn.
Defined.

Lemma zero_ttl_is_thirty_minutes_witness :
  registered_claims_ok (access_claims "alice" 1) (timegm 1801000000) /\
  timegm 1801000000 <= timegm (1000000 + minutes 30) /\
  representable (1000000 + minutes 30) /\
  create_access_token default_settings (access_claims "alice" 1) (Some 0) 1000000 =
    Return A_alice /\
  decode_access_token default_settings A_alice 1801000000
  = Return (Some (<["exp" := VInt 1801]> (access_claims "alice" 1))).
Proof.
  assert (H1 : timegm 1801000000 <= timegm (1000000 + minutes 30))
    by (vm_compute; discriminate).
  split; [apply access_claims_ok|]. split; [exact H1|].
  split; [exact representable_login_sample|].
  destruct (zero_ttl_is_thirty_minutes default_settings (access_claims "alice" 1)
              1000000 1801000000 (access_claims_ok _ _ _) H1
              representable_login_sample) as (Hzero & _ & tok & Hc & Hd).
  rewrite Hzero, A_alice_signed in Hc. injection Hc as <-.
  split; [by rewrite Hzero, A_alice_signed|exact Hd].
Defined.

Lemma gate_returns_named_row_witness :
  get_current_user default_settings A_alice 2000000 db_registered =
    Return (alice_row, db_registered) /\
  alice_row ∈ db_registered /\
  exists p : claims,
    A_alice = JWS ALGORITHM p (SECRET_KEY default_settings) /\
    p !! "sub" = Some (VStr "alice").
Proof.
  assert (H : get_current_user default_settings A_alice 2000000 db_registered =
              Return (alice_row, db_registered)) by (vm_compute; reflexivity).
  split; [exact H|].
  destruct (gate_returns_named_row default_settings _ _ _ _ _ H)
    as (_ & Hin & p & Htok & Hsub & _).
  split; [exact Hin|]. exists p. split; [exact Htok|exact Hsub].
Defined.

Lemma password123_len : len "password123" <= MAX_PASSWORD_SIZE.
Proof. vm_compute. discriminate. Qed.

Lemma representable_sample_3 : representable (3000000 + minutes 30).
Proof. apply representable_sample. vm_compute. reflexivity. Qed.

Lemma login_issues_working_token_witness :
  store_ok db_registered /\ alice_row ∈ db_registered /\
  User.hashed_password alice_row = Argon2 "salt" "password123" /\
  len "password123" <= MAX_PASSWORD_SIZE /\ representable (3000000 + minutes 30) /\
  get_db (login default_settings "alice" "password123" 3000000) db_registered =
    (Return {| access_token := login_token default_settings alice_row 3000000;
               token_type := "bearer" |}, db_registered) /\
  get_db (verify_token default_settings
            (login_token default_settings alice_row 3000000) 4000000) db_registered =
    (Return {| VerifyResponse.valid := true; VerifyResponse.user_id := 1;
               VerifyResponse.username := "alice";
               VerifyResponse.email_verified := false |}, db_registered) /\
  get_db (get_current_user_info default_settings
            (login_token default_settings alice_row 3000000) 1804000000) db_registered =
    (Raise credentials_exception, db_registered).
Proof.
  split; [exact store_ok_registered|]. split; [exact alice_row_registered|].
  split; [reflexivity|]. split; [exact password123_len|].
  split; [exact representable_sample_3|].
  pose proof (login_issues_working_token default_settings db_registered alice_row
                "salt" "password123" 3000000 4000000
                store_ok_registered alice_row_registered eq_refl
                password123_len representable_sample_3) as H1.
  pose proof (login_issues_working_token default_settings db_registered alice_row
                "salt" "password123" 3000000 1804000000
                store_ok_registered alice_row_registered eq_refl
                password123_len representable_sample_3) as H2.
  cbv zeta in H1, H2.
  destruct H1 as (Hlogin & _ & _ & _ & Hverify).
  destruct H2 as (_ & _ & _ & Hme & _).
  split; [exact Hlogin|]. split; [exact Hverify|exact Hme].
Defined.

Lemma login_success_requires_password_witness :
  login default_settings "alice" "password123" 3000000 db_registered =
    Return ({| access_token := login_token default_settings alice_row 3000000;
               token_type := "bearer" |}, db_registered) /\
  exists u salt,
    u ∈ db_registered /\ User.username u = "alice" /\
    User.hashed_password u = Argon2 salt "password123".
Proof.
  assert (H : login default_settings "alice" "password123" 3000000 db_registered =
              Return ({| access_token := login_token default_settings alice_row 3000000;
                         token_type := "bearer" |}, db_registered))
    by (vm_compute; reflexivity).
  split; [exact H|].
  destruct (login_success_requires_password default_settings _ _ _ _ _ _ H)
    as (_ & u & salt & Hin & Hname & Hhash & _).
  exists u, salt. done.
Defined.



Lemma register_rejects_duplicates_witness :
  store_ok db_registered /\ alice_row ∈ db_registered /\
  User.username alice_row = UserCreate.username alice /\
  get_db (register default_settings alice "pepper" 2000000 2000000 2000000)
    db_registered =
    (Raise (HTTPException 400 "Username already registered" []), db_registered) /\
  (forall r, r ∈ db_registered -> User.username r <> UserCreate.username alice_again) /\
  User.email alice_row = UserCreate.email alice_again /\
  get_db (register default_settings alice_again "pepper" 2000000 2000000 2000000)
    db_registered =
    (Raise (HTTPException 400 "Email already registered" []), db_registered).
Proof.
  assert (Hu : forall r, r ∈ db_registered ->
               User.username r <> UserCreate.username alice_again).
  { rewrite db_registered_eq. intros r ->%list_elem_of_singleton. discriminate. }
  split; [exact store_ok_registered|]. split; [exact alice_row_registered|].
  split; [reflexivity|]. split.
  - apply (register_rejects_duplicates default_settings alice "pepper"
             2000000 2000000 2000000 db_registered alice_row
             store_ok_registered alice_row_registered). reflexivity.
  - split; [exact Hu|]. split; [reflexivity|].
    apply (register_rejects_duplicates default_settings alice_again "pepper"
             2000000 2000000 2000000 db_registered alice_row
             store_ok_registered alice_row_registered); [exact Hu|reflexivity].
Defined.




Lemma verify_email_refusals_witness :
  get_db (verify_email default_settings (NotJWS "garbage") 2000000 2000000)
    db_registered =
    (Raise (HTTPException 400 "Invalid or expired verification token" []),
     db_registered) /\
  get_db (verify_email default_settings
            (create_verification_token default_settings 99 "alice@x.com" 1000000)
            2000000 2000000) db_registered =
    (Raise (HTTPException 404 "User not found" []), db_registered) /\
  get_db (verify_email default_settings
            (create_verification_token default_settings 1 "eve@x.com" 1000000)
            2000000 2000000) db_registered =
    (Raise (HTTPException 400 "Invalid verification token" []), db_registered) /\
  get_db (verify_email default_settings T1 2000000 86402000000) db_registered =
    (Raise TypeError, db_registered) /\
  get_db (verify_email default_settings T1 2000000 2000000) db_registered =
    (Raise TypeError, db_registered).
Proof.
  split; [|split; [|split; [|split]]].
  - apply (verify_email_refusals default_settings (NotJWS "garbage")
             2000000 2000000 db_registered). reflexivity.
  - destruct (verify_email_refusals default_settings
                (create_verification_token default_settings 99 "alice@x.com" 1000000)
                2000000 2000000 db_registered) as (_ & H & _).
    apply (H (verification_claims default_settings 99 "alice@x.com" 1000000));
      [vm_compute; reflexivity|right; by exists 99|].
    rewrite db_registered_eq. intros r ->%list_elem_of_singleton. discriminate.
  - destruct (verify_email_refusals default_settings
                (create_verification_token default_settings 1 "eve@x.com" 1000000)
                2000000 2000000 db_registered) as (_ & H & _).
    apply (H (verification_claims default_settings 1 "eve@x.com" 1000000)
             ltac:(vm_compute; reflexivity))
      with (u := alice_row);
      [exact store_ok_registered|exact alice_row_registered|reflexivity|discriminate].
  - destruct (verify_email_refusals default_settings T1
                2000000 86402000000 db_registered) as (_ & H & _).
    apply (H (verification_claims default_settings 1 "alice@x.com" 1000000)
             ltac:(vm_compute; reflexivity))
      with (u := alice_row) (e := 86401000000);
      [exact store_ok_registered|exact alice_row_registered|reflexivity
      |reflexivity|reflexivity|reflexivity].
  - destruct (verify_email_refusals default_settings T1
                2000000 2000000 db_registered) as (_ & H & _).
    apply (H (verification_claims default_settings 1 "alice@x.com" 1000000)
             ltac:(vm_compute; reflexivity))
      with (u := alice_row) (e := 86401000000);
      [exact store_ok_registered|exact alice_row_registered|reflexivity
      |reflexivity|reflexivity|reflexivity].
Defined.


Lemma handlers_keep_identity_and_verified_witness :
  store_ok db_verified /\
  Forall2 row_step db_verified
    (table_after (verify_email default_settings T1 2000000 2000000) db_verified) /\
  Forall2 row_step db_registered
    (table_after (resend_verification_email default_settings "alice@x.com"
                    5000000 5000000) db_registered).
Proof.
  assert (H : store_ok db_verified)
    by (rewrite db_verified_eq; apply store_ok_singleton).
  split; [exact H|]. split.
  - apply (handlers_keep_identity_and_verified default_settings db_verified H).
  - apply (handlers_keep_identity_and_verified default_settings db_registered
             store_ok_registered).
Defined.

Lemma no_request_verifies_witness :
  Forall expiry_stored db_registered /\
  table_after (verify_email default_settings T1 2000000 2000000) db_registered =
    db_registered /\
  Forall expiry_stored
    (table_after (resend_verification_email default_settings "alice@x.com"
                    5000000 5000000) db_registered) /\
  Forall expiry_stored
    (table_after (register default_settings alice "salt" 1000000 1000000 1000000) []).
Proof.
  assert (H : Forall expiry_stored db_registered).
  { rewrite db_registered_eq. apply Forall_singleton. intros _. simpl. eauto. }
  split; [exact H|].
  destruct (no_request_verifies default_settings db_registered H)
    as (_ & _ & Hv & Hs).
  split; [apply Hv|]. split; [apply Hs|].
  destruct (no_request_verifies default_settings [] (Forall_nil_2 _)) as (Hr & _).
  apply Hr.
Defined.

Lemma requests_keep_table_constraints_witness :
  store_ok db_registered /\ hashes_ok db_registered /\
  store_ok (table_after (register default_settings bob "pepper"
                           2000000 2000000 2000000) db_registered) /\
  hashes_ok (table_after (verify_email default_settings T1 2000000 2000000)
               db_registered).
Proof.
  split; [exact store_ok_registered|]. split; [exact hashes_ok_registered|].
  destruct (requests_keep_table_constraints default_settings db_registered
              store_ok_registered hashes_ok_registered) as (Hr & _ & Hv & _).
  split; [apply Hr|apply Hv].
Defined.


Lemma task_milk_sample : task_milk ∈ tasks_sample.
Proof. apply (bool_decide_unpack _). vm_compute. exact I. Qed.

Lemma task_carol_is_not_alices r :
  r ∈ tasks_sample -> Task.id r = 2 -> Task.user_id r <> User.id alice_row.
Proof.
  unfold tasks_sample. rewrite !elem_of_cons, elem_of_nil.
  intros [->|[->|[->|[]]]]; simpl; intros; discriminate.
Qed.

Lemma task_of_another_is_not_found_witness :
  (forall r, r ∈ tasks_sample -> Task.id r = 2 -> Task.user_id r <> User.id alice_row) /\
  get_task 2 alice_row tasks_sample =
    Raise (HTTPException 404 "Task with id 2 not found" []) /\
  delete_task 2 alice_row tasks_sample =
    Raise (HTTPException 404 "Task with id 2 not found" []) /\
  get_task 2 carol_row tasks_sample = Return (task_carol, tasks_sample).
Proof.
  split; [exact task_carol_is_not_alices|].
  destruct (task_of_another_is_not_found tasks_sample 2 alice_row empty_update 0
              task_carol_is_not_alices) as (Hget & _ & Hdel & _).
  split; [exact Hget|]. split; [exact Hdel|]. vm_compute. reflexivity.
Defined.

Lemma create_task_then_get_witness :
  tasks_ok tasks_sample /\ User.id carol_row <> User.id alice_row /\
  exists row,
    create_task new_task alice_row 40000000 tasks_sample =
      Return (row, tasks_sample ++ [row]) /\
    Task.id row = 4 /\ Task.user_id row = 1 /\
    get_task 4 alice_row (tasks_sample ++ [row]) = Return (row, tasks_sample ++ [row]) /\
    get_task 4 carol_row (tasks_sample ++ [row]) =
      Raise (HTTPException 404 "Task with id 4 not found" []).
Proof.
  assert (Hne : User.id carol_row <> User.id alice_row) by discriminate.
  split; [exact tasks_ok_sample|]. split; [exact Hne|].
  pose proof (create_task_then_get tasks_sample new_task alice_row carol_row 40000000
                tasks_ok_sample Hne) as H.
  cbv zeta in H. destruct H as (Hc & _ & _ & Hg & Hv).
  eexists. split; [exact Hc|]. split; [reflexivity|]. split; [reflexivity|].
  split; [exact Hg|exact Hv].
Defined.

Lemma delete_task_removes_that_task_witness :
  tasks_ok tasks_sample /\ task_milk ∈ tasks_sample /\
  Task.user_id task_milk = User.id alice_row /\
  delete_task 1 alice_row tasks_sample =
    Return ({| message := "Task 1 deleted successfully"; success := true |},
            [task_carol; task_rent]) /\
  get_task 1 alice_row [task_carol; task_rent] =
    Raise (HTTPException 404 "Task with id 1 not found" []).
Proof.
  split; [exact tasks_ok_sample|]. split; [exact task_milk_sample|].
  split; [reflexivity|].
  pose proof (delete_task_removes_that_task tasks_sample task_milk alice_row
                tasks_ok_sample task_milk_sample eq_refl) as H.
  cbv zeta in H. destruct H as (Hd & _ & _ & _ & Hg).
  split; [exact Hd|exact Hg].
Defined.

Lemma toggle_task_twice_witness :
  tasks_ok tasks_sample /\ task_milk ∈ tasks_sample /\
  Task.user_id task_milk = User.id alice_row /\
  toggle_task 1 alice_row 50000000 tasks_sample =
    Return (set_updated_at (set_completed task_milk true) 50000000,
            [set_updated_at (set_completed task_milk true) 50000000;
             task_carol; task_rent]) /\
  toggle_task 1 alice_row 60000000
    [set_updated_at (set_completed task_milk true) 50000000; task_carol; task_rent] =
    Return (set_updated_at task_milk 60000000,
            [set_updated_at task_milk 60000000; task_carol; task_rent]).
Proof.
  split; [exact tasks_ok_sample|]. split; [exact task_milk_sample|].
  split; [reflexivity|].
  pose proof (toggle_task_twice tasks_sample task_milk alice_row 50000000 60000000
                tasks_ok_sample task_milk_sample eq_refl) as H.
  cbv zeta in H. destruct H as (H1 & _ & _ & H2).
  split; [exact H1|exact H2].
Defined.

Lemma update_task_sets_provided_fields_witness :
  tasks_ok tasks_sample /\ task_milk ∈ tasks_sample /\
  Task.user_id task_milk = User.id alice_row /\
  (exists t' db',
     update_task 1 rename_task alice_row 50000000 tasks_sample = Return (t', db') /\
     Task.title t' = "buy oat milk" /\ Task.completed t' = false) /\
  (exists t' db',
     update_task 1 empty_update alice_row 50000000 tasks_sample = Return (t', db') /\
     t' = task_milk /\ db' = tasks_sample).
Proof.
  split; [exact tasks_ok_sample|]. split; [exact task_milk_sample|].
  split; [reflexivity|]. split.
  - destruct (update_task_sets_provided_fields tasks_sample task_milk alice_row
                rename_task 50000000 tasks_ok_sample task_milk_sample eq_refl)
      as (t' & db' & Hret & _ & Htitle & _ & Hcompl & _).
    exists t', db'. split; [exact Hret|]. split; [exact Htitle|exact Hcompl].
  - destruct (update_task_sets_provided_fields tasks_sample task_milk alice_row
                empty_update 50000000 tasks_ok_sample task_milk_sample eq_refl)
      as (t' & db' & Hret & _ & _ & _ & _ & _ & _ & Hnone).
    exists t', db'. split; [exact Hret|]. by apply Hnone.
Defined.

Lemma reads_return_own_tasks_witness :
  get_tasks None alice_row tasks_sample = Return ([task_rent; task_milk], tasks_sample) /\
  get_task 3 alice_row tasks_sample = Return (task_rent, tasks_sample) /\
  task_rent ∈ tasks_sample /\ Task.user_id task_rent = User.id alice_row.
Proof.
  assert (H : get_task 3 alice_row tasks_sample = Return (task_rent, tasks_sample))
    by (vm_compute; reflexivity).
  split; [vm_compute; reflexivity|]. split; [exact H|].
  destruct (reads_return_own_tasks tasks_sample alice_row) as (_ & _ & Hget).
  destruct (Hget 3 task_rent tasks_sample H) as (_ & Hin & _ & Hown).
  split; [exact Hin|exact Hown].
Defined.

Lemma task_routes_keep_keys_and_rows_of_others_witness :
  tasks_ok tasks_sample /\
  toggle_task 3 alice_row 50000000 tasks_sample =
    Return (set_updated_at (set_completed task_rent false) 50000000,
            [task_milk; task_carol;
             set_updated_at (set_completed task_rent false) 50000000]) /\
  rows_of_others alice_row
    [task_milk; task_carol; set_updated_at (set_completed task_rent false) 50000000] =
  rows_of_others alice_row tasks_sample.
Proof.
  assert (H : toggle_task 3 alice_row 50000000 tasks_sample =
              Return (set_updated_at (set_completed task_rent false) 50000000,
                      [task_milk; task_carol;
                       set_updated_at (set_completed task_rent false) 50000000]))
    by (vm_compute; reflexivity).
  split; [exact tasks_ok_sample|]. split; [exact H|].
  destruct (task_routes_keep_keys_and_rows_of_others tasks_sample alice_row
              tasks_ok_sample) as (_ & _ & _ & Ht).
  apply (Ht 3 50000000 _ _ H).
Defined.

Lemma protected_request_frame_witness :
  decode_access_token default_settings (NotJWS "garbage") 2000000 = Return None /\
  protected default_settings (NotJWS "garbage") 2000000
    (fun cu => delete_task 2 cu) db_sample =
    (Raise credentials_exception, db_sample) /\
  fst (protected default_settings (login_token default_settings alice_row 1000000)
         2000000 (fun cu => delete_task 2 cu) db_sample) =
    Raise (HTTPException 404 "Task with id 2 not found" []) /\
  snd (protected default_settings (login_token default_settings alice_row 1000000)
         2000000 (fun cu => delete_task 2 cu) db_sample) = db_sample.
Proof.
  assert (H0 : decode_access_token default_settings (NotJWS "garbage") 2000000 =
               Return None) by reflexivity.
  assert (H1 : fst (protected default_settings
                      (login_token default_settings alice_row 1000000)
                      2000000 (fun cu => delete_task 2 cu) db_sample) =
               Raise (HTTPException 404 "Task with id 2 not found" []))
    by (vm_compute; reflexivity).
  split; [exact H0|]. split; [|split; [exact H1|]].
  - apply (protected_request_frame default_settings (NotJWS "garbage") 2000000
             db_sample). exact H0.
  - destruct (protected_request_frame default_settings
                (login_token default_settings alice_row 1000000) 2000000 db_sample)
      as (_ & _ & H).
    apply (H MessageResponse (fun cu => delete_task 2 cu) _ H1).
Defined.

Lemma bearer_cannot_change_tasks_of_others_witness :
  store_ok (users db_sample) /\ tasks_ok (tasks db_sample) /\
  alice_row ∈ users db_sample /\
  timegm 2000000 <= timegm (1000000 + minutes 30) /\
  rows_of_others alice_row
    (tasks (snd (protected default_settings
                   (login_token default_settings alice_row 1000000) 2000000
                   (fun cu => delete_task 1 cu) db_sample))) = [task_carol] /\
  rows_of_others alice_row (tasks db_sample) = [task_carol].
Proof.
  assert (Hin : alice_row ∈ users db_sample)
    by (apply (bool_decide_unpack _); vm_compute; exact I).
  assert (Hlive : timegm 2000000 <= timegm (1000000 + minutes 30))
    by (vm_compute; discriminate).
  split; [exact store_ok_sample|]. split; [exact tasks_ok_sample|].
  split; [exact Hin|]. split; [exact Hlive|].
  pose proof (bearer_cannot_change_tasks_of_others default_settings db_sample
                alice_row 1000000 2000000 store_ok_sample tasks_ok_sample Hin Hlive)
    as H.
  cbv zeta in H. destruct H as (_ & _ & Hd & _).
  destruct (Hd 1) as (_ & _ & Heq).
  split; [|vm_compute; reflexivity].
  rewrite Heq. vm_compute. reflexivity.
Defined.
